(** * SQL statement security validators of the MSSQL MCP DBA toolkit

    A shallow embedding of the four query validators of the repository:

    - [SqlSecurityValidator.ValidateReadQuery] and
      [SqlSecurityValidator.ValidateUpdateQuery]
      (dotnet/MssqlMcp/SqlSecurityValidator.cs), the ReadOnlyQuery and
      GuardedMutation policies;
    - [DBA_ReadDataTool.validateDBAQuery] (Node tool DBA_read_data), the
      DiagnosticBatch policy;
    - [ExecuteDDLTool.validateDDL] (Node tool execute_ddl), the
      DataDefinition policy.

    Character model.  Query text is a [string] of 8-bit characters.  On the
    ASCII range the character classes below ([\s], [\w], letter case) are
    exactly those of .NET and of JavaScript; a character above 127 is an
    opaque symbol: not white space, not a word character, without case.
    .NET and JavaScript go further there: [ToUpperInvariant] and
    [toUpperCase] map letters outside ASCII (U+017F becomes S), and their
    white space takes in U+00A0 and others.  Statements that depend on the
    letter case or on the character classes of a text are therefore made
    for ASCII texts, [every is_ascii]; those that hold whatever the classes
    are carry no such hypothesis. *)

From Stdlib Require Import Bool List ZArith NArith Lia Ascii String.
Import ListNotations.
Open Scope string_scope.
Open Scope bool_scope.

(* ================================================================== *)
(** ** Text primitives shared by the C# and the JavaScript code        *)
(* ================================================================== *)

Module Text.

Definition code (c : ascii) : N := N_of_ascii c.

Definition in_range (lo hi : N) (c : ascii) : bool :=
  (lo <=? code c)%N && (code c <=? hi)%N.

Definition is_upper (c : ascii) : bool := in_range 65 90 c.
Definition is_lower (c : ascii) : bool := in_range 97 122 c.
Definition is_digit (c : ascii) : bool := in_range 48 57 c.

(** [[A-Za-z0-9_]], which is also [\w] on ASCII text. *)
Definition is_word (c : ascii) : bool :=
  is_upper c || is_lower c || is_digit c || (c =? "_")%char.

(** [\s], [char.IsWhiteSpace] and the characters removed by [Trim()] and
    [trim()], as far as ASCII goes: TAB, LF, VT, FF, CR and the space. *)
Definition is_space (c : ascii) : bool :=
  in_range 9 13 c || (c =? " ")%char.

Definition LF : ascii := ascii_of_N 10.
Definition CR : ascii := ascii_of_N 13.
Definition TAB : ascii := ascii_of_N 9.

(** The characters on which the classes above and the case mapping below
    are those of .NET and of JavaScript. *)
Definition is_ascii (c : ascii) : bool := (code c <? 128)%N.

(** Printable ASCII and ASCII white space.  On texts of these characters
    the [StartsWith(string)] of .NET, which compares by the rules of the
    current culture and may skip control characters, is the ordinal
    [StartsWith] below. *)
Definition is_plain (c : ascii) : bool :=
  in_range 32 126 c || in_range 9 13 c.

(** Upper case of an ASCII character: [a]..[z] to [A]..[Z], the others
    unchanged. *)
Definition to_upper (c : ascii) : ascii :=
  if is_lower c then ascii_of_N (code c - 32) else c.

(** [ToUpperInvariant()] / [toUpperCase()] on ASCII text. *)
Fixpoint ToUpper (s : string) : string :=
  match s with
  | EmptyString => EmptyString
  | String c s' => String (to_upper c) (ToUpper s')
  end.

(** [StartsWith] / [startsWith]. *)
Fixpoint StartsWith (s w : string) {struct w} : bool :=
  match w, s with
  | EmptyString, _ => true
  | String a w', String b s' => (a =? b)%char && StartsWith s' w'
  | String _ _, EmptyString => false
  end.

(** [Contains] / [includes]: [w] occurs in [s] at some offset. *)
Fixpoint Contains (s w : string) : bool :=
  StartsWith s w ||
  match s with
  | EmptyString => false
  | String _ s' => Contains s' w
  end.

(** [Contains(w, StringComparison.OrdinalIgnoreCase)]. *)
Definition ContainsIgnoreCase (s w : string) : bool :=
  Contains (ToUpper s) (ToUpper w).

(** [Replace(a, b)] on single characters. *)
Fixpoint ReplaceChar (a b : ascii) (s : string) : string :=
  match s with
  | EmptyString => EmptyString
  | String c s' => String (if (c =? a)%char then b else c) (ReplaceChar a b s')
  end.

Fixpoint TrimStart (s : string) : string :=
  match s with
  | EmptyString => EmptyString
  | String c s' => if is_space c then TrimStart s' else s
  end.

Fixpoint TrimEnd (s : string) : string :=
  match s with
  | EmptyString => EmptyString
  | String c s' =>
      match TrimEnd s' with
      | EmptyString => if is_space c then EmptyString else String c EmptyString
      | t => String c t
      end
  end.

(** [Trim()] / [trim()]. *)
Definition Trim (s : string) : string := TrimEnd (TrimStart s).

Fixpoint all_space (s : string) : bool :=
  match s with
  | EmptyString => true
  | String c s' => is_space c && all_space s'
  end.

(** [string.IsNullOrWhiteSpace] on a non-null string. *)
Definition IsNullOrWhiteSpace (s : string) : bool := all_space s.

Definition is_empty (s : string) : bool :=
  match s with EmptyString => true | _ => false end.

(** [Split(sep)] / [split(sep)]: the pieces between the separators, empty
    pieces included. *)
Fixpoint Split (sep : ascii) (s : string) : list string :=
  match s with
  | EmptyString => [EmptyString]
  | String c s' =>
      if (c =? sep)%char then EmptyString :: Split sep s'
      else match Split sep s' with
           | h :: t => String c h :: t
           | [] => [String c EmptyString]
           end
  end.

(** Every character of [s] satisfies [P]. *)
Fixpoint every (P : ascii -> bool) (s : string) : bool :=
  match s with
  | EmptyString => true
  | String c s' => if P c then every P s' else false
  end.

Definition is_not (a : ascii) (c : ascii) : bool := negb (c =? a)%char.

(** [string.Join] / [join]. *)
Fixpoint Join (sep : string) (l : list string) : string :=
  match l with
  | [] => EmptyString
  | [x] => x
  | x :: l' => x ++ sep ++ Join sep l'
  end.

(** [Length] / [length] as an integer. *)
Definition Length (s : string) : Z := Z.of_nat (String.length s).

End Text.

(* ================================================================== *)
(** ** The fragment of regular expressions the validators use          *)
(* ================================================================== *)

Module Regex.
Import Text.

(** Every repetition in the source patterns ranges over a character class
    ([\s*], [\s+], [.*?], [[\s\S]*?]), so repetition is over a class.  Lazy
    and greedy repetition accept the same strings; [IsMatch] and [test] ask
    only whether some match exists. *)
Inductive regex : Type :=
| Eps
| Class (p : ascii -> bool)
| Cat (r1 r2 : regex)
| Alt (r1 r2 : regex)
| StarClass (p : ascii -> bool)
| Bol                     (* ^  without the multiline option *)
| EolNet                  (* $  in .NET: at the end or before a final LF *)
| EolJs                   (* $  in JavaScript: at the end *)
| WordBoundary.           (* \b *)

Definition word_before (prev : option ascii) : bool :=
  match prev with Some c => is_word c | None => false end.

Definition word_after (s : string) : bool :=
  match s with String c _ => is_word c | EmptyString => false end.

(** Repetition of a class, then the continuation [k], by backtracking. *)
Fixpoint star_class (p : ascii -> bool) (k : option ascii -> string -> bool)
    (prev : option ascii) (s : string) : bool :=
  if k prev s then true
  else match s with
       | String c s' => if p c then star_class p k (Some c) s' else false
       | EmptyString => false
       end.

(** [matches r k prev s]: some prefix of [s] matches [r], the character
    before it being [prev], and the continuation accepts what follows. *)
Fixpoint matches (r : regex) (k : option ascii -> string -> bool)
    (prev : option ascii) (s : string) : bool :=
  match r with
  | Eps => k prev s
  | Class p =>
      match s with
      | String c s' => if p c then k (Some c) s' else false
      | EmptyString => false
      end
  | Cat r1 r2 => matches r1 (matches r2 k) prev s
  | Alt r1 r2 => if matches r1 k prev s then true else matches r2 k prev s
  | StarClass p => star_class p k prev s
  | Bol => match prev with None => k prev s | Some _ => false end
  | EolNet =>
      match s with
      | EmptyString => k prev s
      | String c EmptyString => if (c =? LF)%char then k prev s else false
      | _ => false
      end
  | EolJs => match s with EmptyString => k prev s | _ => false end
  | WordBoundary =>
      if xorb (word_before prev) (word_after s) then k prev s else false
  end.

Definition accept (_ : option ascii) (_ : string) : bool := true.

(** A match starting at some offset of [s]. *)
Fixpoint search (r : regex) (prev : option ascii) (s : string) : bool :=
  if matches r accept prev s then true
  else match s with
       | String c s' => search r (Some c) s'
       | EmptyString => false
       end.

(** [Regex.IsMatch(s)] / [RegExp.prototype.test(s)]. *)
Definition IsMatch (r : regex) (s : string) : bool := search r None s.

(** *** Building blocks *)

Definition chr (c : ascii) : regex := Class (fun x => (x =? c)%char).

(** A character under [RegexOptions.IgnoreCase] / the [i] flag. *)
Definition chr_ci (c : ascii) : regex :=
  Class (fun x => (to_upper x =? to_upper c)%char).

Fixpoint lit (w : string) : regex :=
  match w with
  | EmptyString => Eps
  | String c w' => Cat (chr c) (lit w')
  end.

Fixpoint lit_ci (w : string) : regex :=
  match w with
  | EmptyString => Eps
  | String c w' => Cat (chr_ci c) (lit_ci w')
  end.

Fixpoint alts (l : list regex) : regex :=
  match l with
  | [] => Class (fun _ => false)
  | [r] => r
  | r :: l' => Alt r (alts l')
  end.

Fixpoint seq (l : list regex) : regex :=
  match l with
  | [] => Eps
  | [r] => r
  | r :: l' => Cat r (seq l')
  end.

Definition words_ci (l : list string) : regex := alts (map lit_ci l).

Definition ws_star : regex := StarClass is_space.                     (* \s* *)
Definition ws_plus : regex := Cat (Class is_space) (StarClass is_space). (* \s+ *)
Definition opt (r : regex) : regex := Alt r Eps.                      (* (?:r)? *)
Definition not_word : regex := Class (fun c => negb (is_word c)).     (* [^A-Za-z0-9_] *)
Definition any_but_LF : regex := StarClass (fun c => negb (c =? LF)%char). (* .* in .NET *)

(** The keyword pattern both languages build:
    [(^|\s|[^A-Za-z0-9_])KEYWORD($|\s|[^A-Za-z0-9_])], case-insensitive. *)
Definition keyword_pattern (eol : regex) (keyword : string) : regex :=
  seq [ alts [Bol; Class is_space; not_word];
        lit_ci keyword;
        alts [eol; Class is_space; not_word] ].

End Regex.

(* ================================================================== *)
(** ** Comment and white-space stripping                               *)
(* ================================================================== *)

Module Normalizer.
Import Text.

(** [Regex.Replace(s, "--.*$", "", Multiline)] and
    [s.replace(/--.*$/gm, '')]: from each [--] up to, not including, the
    next line terminator.  [eol] tells the line terminators: [.] stops at
    them and [$] holds in front of them. *)
Fixpoint strip_line_comments (eol : ascii -> bool) (inside : bool)
    (s : string) : string :=
  match s with
  | EmptyString => EmptyString
  | String c s' =>
      if inside then
        if eol c then String c (strip_line_comments eol false s')
        else strip_line_comments eol true s'
      else
        match s' with
        | String d s'' =>
            if (c =? "-")%char && (d =? "-")%char
            then strip_line_comments eol true s''
            else String c (strip_line_comments eol false s')
        | EmptyString => String c EmptyString
        end
  end.

(** Replacement of [/\*[\s\S]*?\*/]: from each [/*] to the first [*/] after
    it; a [/*] that is never closed is no match and stays. *)
Fixpoint strip_block_comments (inside : bool) (s : string) : string :=
  match s with
  | EmptyString => EmptyString
  | String c s' =>
      match s' with
      | String d s'' =>
          if inside then
            if (c =? "*")%char && (d =? "/")%char
            then strip_block_comments false s''
            else strip_block_comments true s'
          else
            if (c =? "/")%char && (d =? "*")%char then
              if Contains s'' "*/" then strip_block_comments true s''
              else String c (strip_block_comments false s')
            else String c (strip_block_comments false s')
      | EmptyString => if inside then EmptyString else String c EmptyString
      end
  end.

(** [Replace("  ", " ")]: non-overlapping occurrences, left to right. *)
Fixpoint ReplaceDoubleSpace (s : string) : string :=
  match s with
  | EmptyString => EmptyString
  | String c s' =>
      match s' with
      | String d s'' =>
          if (c =? " ")%char && (d =? " ")%char
          then String " " (ReplaceDoubleSpace s'')
          else String c (ReplaceDoubleSpace s')
      | EmptyString => String c EmptyString
      end
  end.

(** [while (q.Contains("  ")) q = q.Replace("  ", " ");] with the length of
    the text as a bound on the number of rounds ([collapse_loop_exits]
    shows the loop leaves by its condition). *)
Fixpoint collapse_loop (fuel : nat) (q : string) : string :=
  match fuel with
  | O => q
  | S fuel' =>
      if Contains q "  " then collapse_loop fuel' (ReplaceDoubleSpace q) else q
  end.

Definition CollapseSpaces (q : string) : string :=
  collapse_loop (String.length q) q.

(** [s.replace(/\s+/g, ' ')]: each run of white space becomes one space. *)
Fixpoint collapse_whitespace (in_run : bool) (s : string) : string :=
  match s with
  | EmptyString => EmptyString
  | String c s' =>
      if is_space c then
        if in_run then collapse_whitespace true s'
        else String " " (collapse_whitespace true s')
      else String c (collapse_whitespace false s')
  end.

End Normalizer.

(* ================================================================== *)
(** ** dotnet/MssqlMcp/SqlSecurityValidator.cs                         *)
(* ================================================================== *)

Module SqlSecurityValidator.
Import Text Regex Normalizer.

Record ValidationResult : Type := mkValidationResult
  { IsValid : bool; Message : string }.

Definition DangerousKeywords : list string :=
  [ "DELETE"; "DROP"; "INSERT"; "ALTER"; "CREATE"; "TRUNCATE"; "EXEC"; "EXECUTE";
    "MERGE"; "REPLACE"; "GRANT"; "REVOKE"; "COMMIT"; "ROLLBACK"; "TRANSACTION";
    "BEGIN"; "DECLARE"; "SET"; "USE"; "BACKUP"; "RESTORE"; "KILL"; "SHUTDOWN";
    "WAITFOR"; "OPENROWSET"; "OPENDATASOURCE"; "OPENQUERY"; "OPENXML"; "BULK" ].

Definition chained_verbs : list string :=
  [ "DELETE"; "DROP"; "UPDATE"; "INSERT"; "ALTER"; "CREATE"; "TRUNCATE"; "EXEC";
    "EXECUTE"; "MERGE"; "REPLACE"; "GRANT"; "REVOKE" ].

Definition commented_verbs : list string :=
  [ "DELETE"; "DROP"; "UPDATE"; "INSERT"; "ALTER"; "CREATE"; "TRUNCATE"; "EXEC";
    "EXECUTE" ].

Definition DangerousPatterns : list regex :=
  [ (* ;\s*(DELETE|DROP|...|REVOKE) *)
    seq [chr ";"; ws_star; words_ci chained_verbs];
    (* \bUNION\s+(?:ALL\s+)?SELECT *)
    seq [WordBoundary; lit_ci "UNION"; ws_plus; opt (Cat (lit_ci "ALL") ws_plus);
         lit_ci "SELECT"];
    (* --.*?(DELETE|...|EXECUTE) *)
    seq [lit "--"; any_but_LF; words_ci commented_verbs];
    (* /\*.*?(DELETE|...|EXECUTE).*?\*/ *)
    seq [lit "/*"; any_but_LF; words_ci commented_verbs; any_but_LF; lit "*/"];
    (* \bEXEC\s*\(   \bEXECUTE\s*\(   \bsp_   \bxp_ *)
    seq [WordBoundary; lit_ci "EXEC"; ws_star; chr "("];
    seq [WordBoundary; lit_ci "EXECUTE"; ws_star; chr "("];
    seq [WordBoundary; lit_ci "sp_"];
    seq [WordBoundary; lit_ci "xp_"];
    (* \bBULK\s+INSERT   \bOPENROWSET   \bOPENDATASOURCE *)
    seq [WordBoundary; lit_ci "BULK"; ws_plus; lit_ci "INSERT"];
    seq [WordBoundary; lit_ci "OPENROWSET"];
    seq [WordBoundary; lit_ci "OPENDATASOURCE"];
    (* @@   \bSYSTEM_USER   \bUSER_NAME   \bDB_NAME   \bHOST_NAME *)
    lit "@@";
    seq [WordBoundary; lit_ci "SYSTEM_USER"];
    seq [WordBoundary; lit_ci "USER_NAME"];
    seq [WordBoundary; lit_ci "DB_NAME"];
    seq [WordBoundary; lit_ci "HOST_NAME"];
    (* \bWAITFOR\s+DELAY   \bWAITFOR\s+TIME *)
    seq [WordBoundary; lit_ci "WAITFOR"; ws_plus; lit_ci "DELAY"];
    seq [WordBoundary; lit_ci "WAITFOR"; ws_plus; lit_ci "TIME"];
    (* ;\s*\w *)
    seq [chr ";"; ws_star; Class is_word];
    (* \+\s*CHAR\s*\(   \+\s*NCHAR\s*\(   \+\s*ASCII\s*\( *)
    seq [chr "+"; ws_star; lit_ci "CHAR"; ws_star; chr "("];
    seq [chr "+"; ws_star; lit_ci "NCHAR"; ws_star; chr "("];
    seq [chr "+"; ws_star; lit_ci "ASCII"; ws_star; chr "("] ].

Definition is_LF (c : ascii) : bool := (c =? LF)%char.

Definition RemoveComments (sql : string) : string :=
  let result := strip_line_comments is_LF false sql in
  strip_block_comments false result.

(** The text both validators analyse: [RemoveComments], TAB, LF and CR
    turned into spaces, [Trim], then the double-space loop. *)
Definition cleanQuery_of (sql : string) : string :=
  CollapseSpaces
    (Trim (ReplaceChar CR " " (ReplaceChar LF " " (ReplaceChar TAB " "
       (RemoveComments sql))))).

(** [Regex.IsMatch(upperQuery, keywordPattern, RegexOptions.IgnoreCase)]. *)
Definition keyword_found (upperQuery keyword : string) : bool :=
  IsMatch (keyword_pattern EolNet keyword) upperQuery.

(** [cleanQuery.Split(';').Where(stmt => !string.IsNullOrWhiteSpace(stmt))]. *)
Definition statements_of (cleanQuery : string) : list string :=
  filter (fun stmt => negb (IsNullOrWhiteSpace stmt)) (Split ";" cleanQuery).

(** The [foreach] over a keyword list: the first keyword found, if any. *)
Definition first_dangerous (keywords : list string) (upperQuery : string)
  : option string :=
  find (keyword_found upperQuery) keywords.

(** The [foreach] over [DangerousPatterns], on the text as submitted. *)
Definition pattern_detected (sql : string) : bool :=
  existsb (fun pattern => IsMatch pattern sql) DangerousPatterns.

Definition multiple_statements (cleanQuery : string) : bool :=
  (1 <? List.length (statements_of cleanQuery))%nat.

Definition char_conversion (sql : string) : bool :=
  ContainsIgnoreCase sql "CHAR(" || ContainsIgnoreCase sql "NCHAR(" ||
  ContainsIgnoreCase sql "ASCII(".

Definition too_long (sql : string) : bool := (Length sql >? 10000)%Z.

Definition read_keyword_message (keyword : string) : string :=
  "Dangerous keyword '" ++ keyword ++
  "' detected in query. Only SELECT operations are allowed.".

Definition update_keyword_message (keyword : string) : string :=
  "Dangerous keyword '" ++ keyword ++ "' detected in query.".

Definition ValidateReadQuery (sql : string) : ValidationResult :=
  if IsNullOrWhiteSpace sql then
    mkValidationResult false "Query must be a non-empty string"
  else
  let cleanQuery := cleanQuery_of sql in
  if IsNullOrWhiteSpace cleanQuery then
    mkValidationResult false "Query cannot be empty after removing comments"
  else
  let upperQuery := ToUpper cleanQuery in
  if negb (StartsWith upperQuery "SELECT") then
    mkValidationResult false "Query must start with SELECT for security reasons"
  else
  match first_dangerous DangerousKeywords upperQuery with
  | Some keyword => mkValidationResult false (read_keyword_message keyword)
  | None =>
  if pattern_detected sql then
    mkValidationResult false
      "Potentially malicious SQL pattern detected. Only simple SELECT queries are allowed."
  else
  if multiple_statements cleanQuery then
    mkValidationResult false
      "Multiple SQL statements are not allowed. Use only a single SELECT statement."
  else
  if char_conversion sql then
    mkValidationResult false
      "Character conversion functions are not allowed as they may be used for obfuscation."
  else
  if too_long sql then
    mkValidationResult false
      "Query is too long. Maximum allowed length is 10,000 characters."
  else
    mkValidationResult true "Query validation passed"
  end.

(** [DangerousKeywords.Where(k => k != "UPDATE" && k != "SET")]. *)
Definition updateDangerousKeywords : list string :=
  filter (fun k => negb (k =? "UPDATE") && negb (k =? "SET")) DangerousKeywords.

Definition ValidateUpdateQuery (sql : string) : ValidationResult :=
  if IsNullOrWhiteSpace sql then
    mkValidationResult false "Query must be a non-empty string"
  else
  let cleanQuery := cleanQuery_of sql in
  if IsNullOrWhiteSpace cleanQuery then
    mkValidationResult false "Query cannot be empty after removing comments"
  else
  let upperQuery := ToUpper cleanQuery in
  if negb (StartsWith upperQuery "UPDATE") then
    mkValidationResult false "Query must start with UPDATE for update operations"
  else
  if negb (Contains upperQuery " WHERE ") then
    mkValidationResult false
      "UPDATE queries must include a WHERE clause for security reasons"
  else
  match first_dangerous updateDangerousKeywords upperQuery with
  | Some keyword => mkValidationResult false (update_keyword_message keyword)
  | None =>
  if multiple_statements cleanQuery then
    mkValidationResult false
      "Multiple SQL statements are not allowed. Use only a single UPDATE statement."
  else
  if too_long sql then
    mkValidationResult false
      "Query is too long. Maximum allowed length is 10,000 characters."
  else
    mkValidationResult true "Query validation passed"
  end.

End SqlSecurityValidator.

(* ================================================================== *)
(** ** What the two Node validators share                              *)
(* ================================================================== *)

Module Js.
Import Text Regex Normalizer.

(** [{ isValid: boolean; error?: string }]. *)
Record verdict : Type := mkVerdict { isValid : bool; error : option string }.

Definition ok : verdict := mkVerdict true None.
Definition rejected (msg : string) : verdict := mkVerdict false (Some msg).

(** How a call ends: with a value, or with an exception. *)
Inductive completion (A : Type) : Type :=
| Returns (a : A)
| Throws (exn : string).
Arguments Returns {A} a.
Arguments Throws {A} exn.

(** [undefined.some(...)]: reading a property of [undefined]. *)
Definition TypeError_some : string :=
  "TypeError: Cannot read properties of undefined (reading 'some')".

(** Line terminators of JavaScript on 8-bit text. *)
Definition is_line_terminator (c : ascii) : bool :=
  (c =? LF)%char || (c =? CR)%char.

(** [q.replace(/--.*$/gm, '').replace(/\/\*[\s\S]*?\*\//g, '')
      .replace(/\s+/g, ' ').trim()]. *)
Definition clean (q : string) : string :=
  Trim (collapse_whitespace false
          (strip_block_comments false
             (strip_line_comments is_line_terminator false q))).

(** [new RegExp(`(^|\\s|[^A-Za-z0-9_])${keyword}($|\\s|[^A-Za-z0-9_])`, 'i')
      .test(upper)]. *)
Definition keyword_found (upper keyword : string) : bool :=
  IsMatch (keyword_pattern EolJs keyword) upper.

(** The [for ... of] over a keyword list: the first keyword found, if any. *)
Definition first_dangerous (keywords : list string) (upper : string)
  : option string :=
  find (keyword_found upper) keywords.

(** The [for ... of] over a pattern list, on the text as submitted. *)
Definition pattern_detected (patterns : list regex) (text : string) : bool :=
  existsb (fun pattern => IsMatch pattern text) patterns.

Definition too_long (text : string) : bool := (Length text >? 50000)%Z.

Definition bind {A B : Type} (c : completion A) (k : A -> completion B)
  : completion B :=
  match c with
  | Returns a => k a
  | Throws e => Throws e
  end.

End Js.

(* ================================================================== *)
(** ** Node tool DBA_read_data: DBA_ReadDataTool.validateDBAQuery      *)
(* ================================================================== *)

Module DBA_ReadDataTool.
Import Text Regex Normalizer Js.

Definition DANGEROUS_KEYWORDS : list string :=
  [ "DELETE"; "DROP"; "UPDATE"; "INSERT"; "ALTER"; "CREATE";
    "TRUNCATE"; "MERGE"; "REPLACE"; "GRANT"; "REVOKE";
    "BACKUP"; "RESTORE"; "KILL"; "SHUTDOWN";
    "OPENROWSET"; "OPENDATASOURCE"; "OPENQUERY"; "OPENXML"; "BULK";
    "DBCC CHECKDB"; "DBCC CHECKALLOC"; "DBCC CHECKTABLE"; "DBCC CHECKFILEGROUP" ].

Definition DANGEROUS_PATTERNS : list regex :=
  [ (* /DBCC\s+(CHECKDB|CHECKALLOC|CHECKTABLE|CHECKFILEGROUP|WRITEPAGE|PAGE)/i *)
    seq [lit_ci "DBCC"; ws_plus;
         words_ci ["CHECKDB"; "CHECKALLOC"; "CHECKTABLE"; "CHECKFILEGROUP";
                   "WRITEPAGE"; "PAGE"]];
    (* /EXEC\s+sp_configure/i   /EXEC\s+xp_/i *)
    seq [lit_ci "EXEC"; ws_plus; lit_ci "sp_configure"];
    seq [lit_ci "EXEC"; ws_plus; lit_ci "xp_"];
    (* /BULK\s+INSERT/i   /OPENROWSET/i   /OPENDATASOURCE/i *)
    seq [lit_ci "BULK"; ws_plus; lit_ci "INSERT"];
    lit_ci "OPENROWSET";
    lit_ci "OPENDATASOURCE";
    (* /xp_cmdshell/i   /xp_dirtree/i   /xp_fileexist/i *)
    lit_ci "xp_cmdshell";
    lit_ci "xp_dirtree";
    lit_ci "xp_fileexist";
    (* /PASSWORD/i   /LOGIN/i *)
    lit_ci "PASSWORD";
    lit_ci "LOGIN" ].

(** [/SELECT|SET\s+STATISTICS|SET\s+SHOWPLAN|DBCC\s+SHOW_STATISTICS/i]. *)
Definition valid_operation : regex :=
  alts [ lit_ci "SELECT";
         seq [lit_ci "SET"; ws_plus; lit_ci "STATISTICS"];
         seq [lit_ci "SET"; ws_plus; lit_ci "SHOWPLAN"];
         seq [lit_ci "DBCC"; ws_plus; lit_ci "SHOW_STATISTICS"] ].

Definition keyword_message (keyword : string) : string :=
  "Dangerous keyword '" ++ keyword ++
  "' detected. This DBA tool prohibits data modification operations.".

Definition validateDBAQuery (query : string) : verdict :=
  if is_empty query then rejected "Query must be a non-empty string" else
  let cleanQuery := clean query in
  if is_empty cleanQuery then
    rejected "Query cannot be empty after removing comments"
  else
  let upperQuery := ToUpper cleanQuery in
  match first_dangerous DANGEROUS_KEYWORDS upperQuery with
  | Some keyword => rejected (keyword_message keyword)
  | None =>
  if pattern_detected DANGEROUS_PATTERNS query then
    rejected
      "Potentially dangerous operation detected. This tool is for diagnostic queries only."
  else
  let hasValidOperation := IsMatch valid_operation upperQuery in
  if negb hasValidOperation then
    rejected
      "Batch must contain at least one SELECT statement or valid DBA diagnostic command."
  else
  if too_long query then
    rejected "Query batch is too long. Maximum allowed length is 50,000 characters."
  else ok
  end.

End DBA_ReadDataTool.

(* ================================================================== *)
(** ** Node tool execute_ddl: ExecuteDDLTool.validateDDL               *)
(* ================================================================== *)

Module ExecuteDDLTool.
Import Text Regex Normalizer Js.

(** Static members of the class. *)
Definition ALLOWED_DDL_KEYWORDS : list string :=
  [ "CREATE"; "ALTER"; "DROP"; "TRUNCATE" ].

Definition ALLOWED_OBJECT_TYPES : list string :=
  [ "TABLE"; "INDEX"; "VIEW"; "TRIGGER"; "CONSTRAINT";
    "DEFAULT"; "RULE"; "SCHEMA"; "SEQUENCE"; "SYNONYM" ].

Definition DANGEROUS_KEYWORDS : list string :=
  [ "EXEC"; "EXECUTE"; "INSERT"; "UPDATE"; "DELETE"; "SELECT";
    "MERGE"; "REPLACE"; "GRANT"; "REVOKE"; "COMMIT"; "ROLLBACK";
    "TRANSACTION"; "BEGIN"; "DECLARE"; "SET"; "USE"; "BACKUP";
    "RESTORE"; "KILL"; "SHUTDOWN"; "WAITFOR"; "OPENROWSET";
    "OPENDATASOURCE"; "OPENQUERY"; "OPENXML"; "BULK"; "DBCC" ].

Definition DANGEROUS_PATTERNS : list regex :=
  [ (* /;\s*(EXEC|EXECUTE|INSERT|UPDATE|DELETE|SELECT|MERGE|GRANT|REVOKE|KILL|SHUTDOWN)/i *)
    seq [chr ";"; ws_star;
         words_ci ["EXEC"; "EXECUTE"; "INSERT"; "UPDATE"; "DELETE"; "SELECT";
                   "MERGE"; "GRANT"; "REVOKE"; "KILL"; "SHUTDOWN"]];
    (* /EXEC\s*\(/i   /EXECUTE\s*\(/i   /sp_/i   /xp_/i *)
    seq [lit_ci "EXEC"; ws_star; chr "("];
    seq [lit_ci "EXECUTE"; ws_star; chr "("];
    lit_ci "sp_";
    lit_ci "xp_";
    (* /EXEC\s*\(/i   /EXECUTE\s*\(/i *)
    seq [lit_ci "EXEC"; ws_star; chr "("];
    seq [lit_ci "EXECUTE"; ws_star; chr "("];
    (* /BULK\s+INSERT/i   /OPENROWSET/i   /OPENDATASOURCE/i *)
    seq [lit_ci "BULK"; ws_plus; lit_ci "INSERT"];
    lit_ci "OPENROWSET";
    lit_ci "OPENDATASOURCE";
    (* /WAITFOR\s+DELAY/i   /WAITFOR\s+TIME/i *)
    seq [lit_ci "WAITFOR"; ws_plus; lit_ci "DELAY"];
    seq [lit_ci "WAITFOR"; ws_plus; lit_ci "TIME"];
    (* /;\s*(INSERT|UPDATE|DELETE|SELECT)/i *)
    seq [chr ";"; ws_star; words_ci ["INSERT"; "UPDATE"; "DELETE"; "SELECT"]];
    (* /\+\s*CHAR\s*\(/i   /\+\s*NCHAR\s*\(/i   /\+\s*ASCII\s*\(/i *)
    seq [chr "+"; ws_star; lit_ci "CHAR"; ws_star; chr "("];
    seq [chr "+"; ws_star; lit_ci "NCHAR"; ws_star; chr "("];
    seq [chr "+"; ws_star; lit_ci "ASCII"; ws_star; chr "("];
    (* /master\./i   /msdb\./i   /model\./i   /tempdb\./i *)
    lit_ci "master.";
    lit_ci "msdb.";
    lit_ci "model.";
    lit_ci "tempdb.";
    (* /sys\./i   /INFORMATION_SCHEMA\./i *)
    lit_ci "sys.";
    lit_ci "INFORMATION_SCHEMA." ].

(** [/(master|msdb|model|tempdb)\./i]. *)
Definition systemDbPattern : regex :=
  Cat (words_ci ["master"; "msdb"; "model"; "tempdb"]) (chr ".").

(** The receiver of [validateDDL].  The method reads the two allow-lists as
    [this.ALLOWED_DDL_KEYWORDS] and [this.ALLOWED_OBJECT_TYPES], properties
    of the instance, while the class declares them [static]: they live on
    the constructor, and the instance has them only if somebody assigns
    them (the class's index signature [[key: string]: any] lets the
    expression type-check).  [None] is [undefined]. *)
Record receiver : Type := mkReceiver
  { this_ALLOWED_DDL_KEYWORDS : option (list string);
    this_ALLOWED_OBJECT_TYPES : option (list string) }.

(** [new ExecuteDDLTool()]: the field initialisers set [name],
    [description] and [inputSchema] only. *)
Definition new_ExecuteDDLTool : receiver := mkReceiver None None.

(** A receiver on which the two properties resolve to the class's lists:
    what [this] would be had the lists been instance members.  No code of
    the repository builds it; it shows what the checks after the allow-lists
    would decide. *)
Definition with_static_lists : receiver :=
  mkReceiver (Some ALLOWED_DDL_KEYWORDS) (Some ALLOWED_OBJECT_TYPES).

(** [list.some(f)] on a property that may be [undefined]. *)
Definition some (l : option (list string)) (f : string -> bool)
  : completion bool :=
  match l with
  | Some xs => Returns (existsb f xs)
  | None => Throws TypeError_some
  end.

Definition join_or_throw (l : option (list string)) : completion string :=
  match l with
  | Some xs => Returns (Join ", " xs)
  | None => Throws "TypeError: Cannot read properties of undefined (reading 'join')"
  end.

Notation "'let*' x ':=' c 'in' k" := (bind c (fun x => k))
  (at level 10, x name, c at level 100, k at level 200).

(** [this.ALLOWED_DDL_KEYWORDS.some(keyword => upper.startsWith(keyword + ' '))]. *)
Definition starts_with_allowed (this : receiver) (upper : string)
  : completion bool :=
  some (this_ALLOWED_DDL_KEYWORDS this)
       (fun keyword => StartsWith upper (keyword ++ " ")).

(** The loop over the statements of a batch: the first statement that does
    not start with an allowed verb ends it. *)
Fixpoint check_statements (this : receiver) (statements : list string)
  : completion (option verdict) :=
  match statements with
  | [] => Returns None
  | stmt :: rest =>
      let trimmedStmt := ToUpper (Trim stmt) in
      let* isValidDDL := starts_with_allowed this trimmedStmt in
      if negb isValidDDL then
        Returns (Some (rejected "All statements in a batch must be valid DDL operations."))
      else check_statements this rest
  end.

Definition char_conversion (ddl : string) : bool :=
  Contains ddl "CHAR(" || Contains ddl "NCHAR(" || Contains ddl "ASCII(".

Definition keyword_message (keyword : string) : string :=
  "Dangerous keyword '" ++ keyword ++
  "' detected in DDL statement. Only safe DDL operations are allowed.".

(** The object-type block of CREATE and ALTER statements. *)
Definition object_type_check (this : receiver) (upperDDL : string)
  : completion (option verdict) :=
  if StartsWith upperDDL "CREATE " || StartsWith upperDDL "ALTER " then
    let* hasAllowedObjectType :=
      some (this_ALLOWED_OBJECT_TYPES this)
           (fun objType => Contains upperDDL (" " ++ objType ++ " ")) in
    if negb hasAllowedObjectType then
      let* allowed := join_or_throw (this_ALLOWED_OBJECT_TYPES this) in
      Returns (Some (rejected ("Object type must be one of: " ++ allowed)))
    else Returns None
  else Returns None.

(** [cleanDDL.split(';').filter(stmt => stmt.trim().length > 0)]. *)
Definition statements_of (cleanDDL : string) : list string :=
  filter (fun stmt => (0 <? String.length (Trim stmt))%nat) (Split ";" cleanDDL).

(** The batch block: only a batch of more than one statement is looped over. *)
Definition batch_check (this : receiver) (cleanDDL : string)
  : completion (option verdict) :=
  let statements := statements_of cleanDDL in
  if (1 <? List.length statements)%nat then check_statements this statements
  else Returns None.

Definition validateDDL (this : receiver) (ddl : string) : completion verdict :=
  if is_empty ddl then
    Returns (rejected "DDL statement must be a non-empty string")
  else
  let cleanDDL := clean ddl in
  if is_empty cleanDDL then
    Returns (rejected "DDL statement cannot be empty after removing comments")
  else
  let upperDDL := ToUpper cleanDDL in
  let* startsWithAllowedDDL := starts_with_allowed this upperDDL in
  if negb startsWithAllowedDDL then
    let* allowed := join_or_throw (this_ALLOWED_DDL_KEYWORDS this) in
    Returns (rejected ("DDL statement must start with one of: " ++ allowed))
  else
  let* object_type_failure := object_type_check this upperDDL in
  match object_type_failure with
  | Some failure => Returns failure
  | None =>
  match first_dangerous DANGEROUS_KEYWORDS upperDDL with
  | Some keyword => Returns (rejected (keyword_message keyword))
  | None =>
  if pattern_detected DANGEROUS_PATTERNS ddl then
    Returns (rejected "Potentially malicious SQL pattern detected in DDL statement.")
  else
  let* batch_failure := batch_check this cleanDDL in
  match batch_failure with
  | Some failure => Returns failure
  | None =>
  if char_conversion ddl then
    Returns (rejected
      "Character conversion functions are not allowed as they may be used for obfuscation.")
  else
  if too_long ddl then
    Returns (rejected
      "DDL statement is too long. Maximum allowed length is 50,000 characters.")
  else
  if IsMatch systemDbPattern ddl then
    Returns (rejected
      "Operations on system databases (master, msdb, model, tempdb) are not allowed.")
  else Returns ok
  end end end.

End ExecuteDDLTool.

(* ================================================================== *)
(** ** The vocabulary of the specification                             *)
(* ================================================================== *)

Module Spec.
Import Text Regex Normalizer.

(** *** Standalone tokens (Keyword Scanner) *)

(** The character in front of what follows [w], [prev] being the one in
    front of [w]. *)
Fixpoint last_char (prev : option ascii) (w : string) : option ascii :=
  match w with
  | EmptyString => prev
  | String c w' => last_char (Some c) w'
  end.

(** A keyword occurs "as a standalone token" when some spelling of it, in
    any letter case, is neither immediately preceded nor immediately
    followed by a letter, a digit or an underscore. *)
Definition boundary_before (pre : string) : Prop :=
  match last_char None pre with
  | Some c => is_word c = false
  | None => True
  end.

Definition boundary_after (post : string) : Prop :=
  match post with
  | String c _ => is_word c = false
  | EmptyString => True
  end.

Definition standalone_token (keyword text : string) : Prop :=
  exists pre w post,
    text = pre ++ w ++ post /\ ToUpper w = ToUpper keyword /\
    boundary_before pre /\ boundary_after post.

(** "Returns the first denylisted keyword found": [first] stands alone in
    the text and no keyword listed before it does. *)
Definition first_standalone (denylist : list string) (text first : string)
  : Prop :=
  exists before after,
    denylist = (before ++ first :: after)%list /\
    standalone_token first text /\
    forall k, In k before -> ~ standalone_token k text.

(** *** Pipelines of checks (Policy Engine) *)

(** A check looks at the submitted text and gives the reason of a
    rejection, or lets the text through. *)
Definition stage : Type := string -> option string.

Definition reject_when (b : bool) (reason : string) : option string :=
  if b then Some reason else None.

(** First failing check wins; success requires every check to pass. *)
Fixpoint run_stages (stages : list stage) (sql : string)
  : SqlSecurityValidator.ValidationResult :=
  match stages with
  | [] => SqlSecurityValidator.mkValidationResult true "Query validation passed"
  | check :: rest =>
      match check sql with
      | Some reason => SqlSecurityValidator.mkValidationResult false reason
      | None => run_stages rest sql
      end
  end.

Section Stages.
Import SqlSecurityValidator.

Definition normalized (sql : string) : string := ToUpper (cleanQuery_of sql).

Definition st_non_blank : stage := fun sql =>
  reject_when (IsNullOrWhiteSpace sql) "Query must be a non-empty string".

Definition st_non_empty_normalized : stage := fun sql =>
  reject_when (IsNullOrWhiteSpace (cleanQuery_of sql))
    "Query cannot be empty after removing comments".

Definition st_leading_verb (verb reason : string) : stage := fun sql =>
  reject_when (negb (StartsWith (normalized sql) verb)) reason.

Definition st_guard_clause : stage := fun sql =>
  reject_when (negb (Contains (normalized sql) " WHERE "))
    "UPDATE queries must include a WHERE clause for security reasons".

Definition st_keyword_scanner (denylist : list string)
    (message : string -> string) : stage := fun sql =>
  option_map message (first_dangerous denylist (normalized sql)).

Definition st_pattern_scanner : stage := fun sql =>
  reject_when (pattern_detected sql)
    "Potentially malicious SQL pattern detected. Only simple SELECT queries are allowed.".

Definition st_single_statement (reason : string) : stage := fun sql =>
  reject_when (multiple_statements (cleanQuery_of sql)) reason.

Definition st_char_conversion : stage := fun sql =>
  reject_when (char_conversion sql)
    "Character conversion functions are not allowed as they may be used for obfuscation.".

Definition st_max_length : stage := fun sql =>
  reject_when (Length sql >? 10000)%Z
    "Query is too long. Maximum allowed length is 10,000 characters.".

(** The checks of the ReadOnlyQuery policy, in the order the code runs
    them. *)
Definition read_pipeline : list stage :=
  [ st_non_blank;
    st_non_empty_normalized;
    st_leading_verb "SELECT" "Query must start with SELECT for security reasons";
    st_keyword_scanner DangerousKeywords read_keyword_message;
    st_pattern_scanner;
    st_single_statement
      "Multiple SQL statements are not allowed. Use only a single SELECT statement.";
    st_char_conversion;
    st_max_length ].

(** The checks of the GuardedMutation policy: no Pattern Scanner among
    them. *)
Definition update_pipeline : list stage :=
  [ st_non_blank;
    st_non_empty_normalized;
    st_leading_verb "UPDATE" "Query must start with UPDATE for update operations";
    st_guard_clause;
    st_keyword_scanner updateDangerousKeywords update_keyword_message;
    st_single_statement
      "Multiple SQL statements are not allowed. Use only a single UPDATE statement.";
    st_max_length ].

End Stages.

(** *** Candidate statements (Statement Splitter) *)

(** "Splits normalized text on [;] into an ordered sequence of non-empty
    trimmed statements." *)
Definition candidate_statements (normalized_text : string) : list string :=
  filter (fun stmt => negb (is_empty stmt)) (map Trim (Split ";" normalized_text)).

(** A candidate of a diagnostic batch "must be SELECT or a whitelisted
    toggle" ([SET STATISTICS ...], [SET SHOWPLAN_* ...]). *)
Definition diagnostic_candidate (stmt : string) : bool :=
  let upper := ToUpper stmt in
  StartsWith upper "SELECT" || StartsWith upper "SET STATISTICS" ||
  StartsWith upper "SET SHOWPLAN_".

(** *** Operation classes and the entry point *)

Inductive OperationClass : Type :=
| ReadOnlyQuery
| GuardedMutation
| DataDefinition
| DiagnosticBatch.

(** The two states a call ends in, Accepted and Rejected(reason), and the
    third the code has: an exception. *)
Inductive outcome : Type :=
| Accepted
| Rejected (reason : string)
| Raised (exn : string).

Definition of_result (r : SqlSecurityValidator.ValidationResult) : outcome :=
  if SqlSecurityValidator.IsValid r then Accepted
  else Rejected (SqlSecurityValidator.Message r).

Definition of_verdict (v : Js.verdict) : outcome :=
  if Js.isValid v then Accepted
  else Rejected (match Js.error v with Some reason => reason | None => "" end).

Definition of_completion (c : Js.completion Js.verdict) : outcome :=
  match c with
  | Js.Returns v => of_verdict v
  | Js.Throws exn => Raised exn
  end.

(** [validate(operationClass, queryText)]: each operation class has its own
    validator in the repository; [this] is the execute_ddl tool the
    DataDefinition class runs on. *)
Definition validate_on (this : ExecuteDDLTool.receiver) (op : OperationClass)
    (queryText : string) : outcome :=
  match op with
  | ReadOnlyQuery => of_result (SqlSecurityValidator.ValidateReadQuery queryText)
  | GuardedMutation => of_result (SqlSecurityValidator.ValidateUpdateQuery queryText)
  | DataDefinition => of_completion (ExecuteDDLTool.validateDDL this queryText)
  | DiagnosticBatch => of_verdict (DBA_ReadDataTool.validateDBAQuery queryText)
  end.

Definition validate : OperationClass -> string -> outcome :=
  validate_on ExecuteDDLTool.new_ExecuteDDLTool.

Definition maxLength (op : OperationClass) : Z :=
  match op with
  | ReadOnlyQuery | GuardedMutation => 10000
  | DataDefinition | DiagnosticBatch => 50000
  end.

Definition InputTooLong (op : OperationClass) : string :=
  match op with
  | ReadOnlyQuery | GuardedMutation =>
      "Query is too long. Maximum allowed length is 10,000 characters."
  | DataDefinition =>
      "DDL statement is too long. Maximum allowed length is 50,000 characters."
  | DiagnosticBatch =>
      "Query batch is too long. Maximum allowed length is 50,000 characters."
  end.

(** "Passes all other checks of its policy": every check of the validator
    but the length check lets the text through. *)
Definition other_checks_pass (this : ExecuteDDLTool.receiver)
    (op : OperationClass) (q : string) : Prop :=
  match op with
  | ReadOnlyQuery =>
      let upper := ToUpper (SqlSecurityValidator.cleanQuery_of q) in
      IsNullOrWhiteSpace q = false /\
      IsNullOrWhiteSpace (SqlSecurityValidator.cleanQuery_of q) = false /\
      StartsWith upper "SELECT" = true /\
      SqlSecurityValidator.first_dangerous
        SqlSecurityValidator.DangerousKeywords upper = None /\
      SqlSecurityValidator.pattern_detected q = false /\
      SqlSecurityValidator.multiple_statements
        (SqlSecurityValidator.cleanQuery_of q) = false /\
      SqlSecurityValidator.char_conversion q = false
  | GuardedMutation =>
      let upper := ToUpper (SqlSecurityValidator.cleanQuery_of q) in
      IsNullOrWhiteSpace q = false /\
      IsNullOrWhiteSpace (SqlSecurityValidator.cleanQuery_of q) = false /\
      StartsWith upper "UPDATE" = true /\
      Contains upper " WHERE " = true /\
      SqlSecurityValidator.first_dangerous
        SqlSecurityValidator.updateDangerousKeywords upper = None /\
      SqlSecurityValidator.multiple_statements
        (SqlSecurityValidator.cleanQuery_of q) = false
  | DataDefinition =>
      let upper := ToUpper (Js.clean q) in
      is_empty q = false /\
      is_empty (Js.clean q) = false /\
      ExecuteDDLTool.starts_with_allowed this upper = Js.Returns true /\
      ExecuteDDLTool.object_type_check this upper = Js.Returns None /\
      Js.first_dangerous ExecuteDDLTool.DANGEROUS_KEYWORDS upper = None /\
      Js.pattern_detected ExecuteDDLTool.DANGEROUS_PATTERNS q = false /\
      ExecuteDDLTool.batch_check this (Js.clean q) = Js.Returns None /\
      ExecuteDDLTool.char_conversion q = false /\
      IsMatch ExecuteDDLTool.systemDbPattern q = false
  | DiagnosticBatch =>
      let upper := ToUpper (Js.clean q) in
      is_empty q = false /\
      is_empty (Js.clean q) = false /\
      Js.first_dangerous DBA_ReadDataTool.DANGEROUS_KEYWORDS upper = None /\
      Js.pattern_detected DBA_ReadDataTool.DANGEROUS_PATTERNS q = false /\
      IsMatch DBA_ReadDataTool.valid_operation upper = true
  end.

(** The checks of [ValidateReadQuery] ordered before its
    character-conversion check. *)
Definition read_reaches_char_conversion (sql : string) : Prop :=
  let upper := ToUpper (SqlSecurityValidator.cleanQuery_of sql) in
  IsNullOrWhiteSpace sql = false /\
  IsNullOrWhiteSpace (SqlSecurityValidator.cleanQuery_of sql) = false /\
  StartsWith upper "SELECT" = true /\
  SqlSecurityValidator.first_dangerous
    SqlSecurityValidator.DangerousKeywords upper = None /\
  SqlSecurityValidator.pattern_detected sql = false /\
  SqlSecurityValidator.multiple_statements
    (SqlSecurityValidator.cleanQuery_of sql) = false.

(** The obfuscation rules of the Pattern Scanner: concatenation combined
    with a character-code conversion
    ([\+\s*CHAR\s*\(], [\+\s*NCHAR\s*\(], [\+\s*ASCII\s*\(]). *)
Definition obfuscation_rule_matches (sql : string) : bool :=
  existsb (fun pattern => IsMatch pattern sql)
    [ seq [chr "+"; ws_star; lit_ci "CHAR"; ws_star; chr "("];
      seq [chr "+"; ws_star; lit_ci "NCHAR"; ws_star; chr "("];
      seq [chr "+"; ws_star; lit_ci "ASCII"; ws_star; chr "("] ].

(** A text of [7 + n] characters: [SELECT] and a column name of [n]
    letters. *)
Definition long_select (n : N) : string :=
  "SELECT " ++ string_of_list_ascii (List.repeat "a"%char (N.to_nat n)).

End Spec.

(* ================================================================== *)
(** ** dotnet/MssqlMcp/Tools: ReadData and UpdateData                  *)
(* ================================================================== *)

Module Tools.
Import Text Regex Normalizer.

(** [DbOperationResult], as the constructor calls of the two tools build
    it (the class is declared in a file that is not at hand): [success],
    [error], [rowsAffected], [data]. *)
Record DbOperationResult (D : Type) : Type := mkDbOperationResult
  { Success : bool;
    Error : option string;
    RowsAffected : option Z;
    Data : option D }.
Arguments mkDbOperationResult {D} _ _ _ _.
Arguments Success {D} _.
Arguments Error {D} _.
Arguments RowsAffected {D} _.
Arguments Data {D} _.

(** How an awaited call on the database ends: with a value, or with an
    exception that carries a message. *)
Inductive reply (A : Type) : Type :=
| Done (a : A)
| Failed (message : string).
Arguments Done {A} a.
Arguments Failed {A} message.

(** How a tool call ends, and the command texts it sent to the database
    on the way ([new SqlCommand(sql, conn)], then executed). *)
Inductive task (A : Type) : Type :=
| Completed (a : A)
| Faulted (message : string).
Arguments Completed {A} a.
Arguments Faulted {A} message.

Record ran (A : Type) : Type := mkRan
  { result : task A;
    executed : list string }.
Arguments mkRan {A} _ _.
Arguments result {A} _.
Arguments executed {A} _.

(** [Regex.Replace(columnName, @"[^\w\s\-_.]", "")]: the characters that
    are not removed. *)
Definition column_char_kept (c : ascii) : bool :=
  is_word c || is_space c || (c =? "-")%char || (c =? "_")%char ||
  (c =? ".")%char.

Fixpoint keep_chars (keep : ascii -> bool) (s : string) : string :=
  match s with
  | EmptyString => EmptyString
  | String c s' =>
      if keep c then String c (keep_chars keep s') else keep_chars keep s'
  end.

Definition sanitize_column (columnName : string) : string :=
  keep_chars column_char_kept columnName.

(** [ex.Message.Contains("Invalid object name", OrdinalIgnoreCase)
      ? ex.Message : "Database query execution failed"]. *)
Definition read_safe_error (message : string) : string :=
  if ContainsIgnoreCase message "Invalid object name" then message
  else "Database query execution failed".

Definition update_safe_error (message : string) : string :=
  if ContainsIgnoreCase message "Invalid object name" ||
     ContainsIgnoreCase message "Invalid column name"
  then message
  else "Database update operation failed".

(** [const int maxRecords = 10000]. *)
Definition maxRecords : N := 10000.

Section Database.

(** The values of the columns, whatever they are. *)
Variable V : Type.

(** One record of the reader: for each field, [GetName(i)] and the value,
    [None] when [IsDBNull(i)]. *)
Definition record : Type := list (string * option V).

(** [Dictionary<string, object?>]. *)
Definition row : Type := list (string * option V).

(** [row[key] = value]: the value of an existing key is replaced, a new key
    is added. *)
Fixpoint dict_set (key : string) (value : option V) (d : row) : row :=
  match d with
  | [] => [(key, value)]
  | (k, x) :: d' =>
      if (k =? key)%string then (k, value) :: d'
      else (k, x) :: dict_set key value d'
  end.

(** The [for] loop over the fields of one record. *)
Definition read_row (r : record) : row :=
  fold_left
    (fun (row : row) (field : string * option V) =>
       dict_set (sanitize_column (fst field)) (snd field) row)
    r [].

(** [while (await reader.ReadAsync() && recordCount < maxRecords)]: the rows
    added to [results], and [recordCount] after the loop. *)
Fixpoint read_records (reader : list record) (recordCount : N)
  : list row * N :=
  match reader with
  | [] => ([], recordCount)
  | r :: rest =>
      if (recordCount <? maxRecords)%N then
        let (results, n) := read_records rest (recordCount + 1)%N in
        (read_row r :: results, n)
      else ([], recordCount)
  end.

(** The database as the two tools use it.  [GetOpenConnectionAsync] gives
    the message of the exception when opening fails; the two commands
    answer for a command text, [Failed] when executing or reading
    throws. *)
Record database : Type := mkDatabase
  { GetOpenConnectionAsync : option string;
    ExecuteReaderAsync : string -> reply (list record);
    ExecuteNonQueryAsync : string -> reply Z }.

(** [Tools.ReadData].  The connection is opened outside the [try]: a
    failure to open faults the task.  The logger is not modelled. *)
Definition ReadData (db : database) (sql : string)
  : ran (DbOperationResult (list row)) :=
  let validation := SqlSecurityValidator.ValidateReadQuery sql in
  if negb (SqlSecurityValidator.IsValid validation) then
    mkRan (Completed
             (mkDbOperationResult false
                (Some ("Security validation failed: " ++
                       SqlSecurityValidator.Message validation))
                None None))
          []
  else
  match GetOpenConnectionAsync db with
  | Some message => mkRan (Faulted message) []
  | None =>
      match ExecuteReaderAsync db sql with
      | Done reader =>
          let (results, recordCount) := read_records reader 0 in
          mkRan (Completed (mkDbOperationResult true None None (Some results)))
                [sql]
      | Failed message =>
          mkRan (Completed
                   (mkDbOperationResult false (Some (read_safe_error message))
                      None None))
                [sql]
      end
  end.

(** [Tools.UpdateData]. *)
Definition UpdateData (db : database) (sql : string)
  : ran (DbOperationResult (list row)) :=
  let validation := SqlSecurityValidator.ValidateUpdateQuery sql in
  if negb (SqlSecurityValidator.IsValid validation) then
    mkRan (Completed
             (mkDbOperationResult false
                (Some ("Security validation failed: " ++
                       SqlSecurityValidator.Message validation))
                None None))
          []
  else
  match GetOpenConnectionAsync db with
  | Some message => mkRan (Faulted message) []
  | None =>
      match ExecuteNonQueryAsync db sql with
      | Done rows =>
          mkRan (Completed (mkDbOperationResult true None (Some rows) None))
                [sql]
      | Failed message =>
          mkRan (Completed
                   (mkDbOperationResult false (Some (update_safe_error message))
                      None None))
                [sql]
      end
  end.

End Database.

Arguments dict_set {V} key value d.
Arguments read_row {V} r.
Arguments read_records {V} reader recordCount.
Arguments mkDatabase {V} _ _ _.
Arguments GetOpenConnectionAsync {V} _.
Arguments ExecuteReaderAsync {V} _ _.
Arguments ExecuteNonQueryAsync {V} _ _.
Arguments ReadData {V} db sql.
Arguments UpdateData {V} db sql.

End Tools.

(** The text starts with a space. *)
Definition starts_with_space (t : string) : bool :=
  match t with
  | String c _ => (c =? " ")%char
  | EmptyString => false
  end.

(** The characters on which the two normalizers can be compared: ASCII
    other than VT, FF and CR.  [Regex] of .NET ends a line at LF only and
    JavaScript at CR too; the C# validator turns TAB, LF and CR into
    spaces and the Node validators every white space. *)
Definition shared_char (c : ascii) : bool :=
  (Text.code c <? 128)%N && negb (Text.in_range 11 13 c).

(* ================================================================== *)
(** ** Node tool DBA_read_data: what run computes around the batch     *)
(* ================================================================== *)

Module DBA_ReadDataRun.
Import Text Regex Normalizer Js.

(** [/SET\s+SHOWPLAN_(XML|ALL|TEXT)\s+(ON|OFF)/i.test(query.toUpperCase())]. *)
Definition hasShowplanCommands (query : string) : bool :=
  let upperQuery := ToUpper query in
  IsMatch
    (seq [lit_ci "SET"; ws_plus; lit_ci "SHOWPLAN_";
          words_ci ["XML"; "ALL"; "TEXT"]; ws_plus; words_ci ["ON"; "OFF"]])
    upperQuery.

(** [/^\s*SELECT/i]. *)
Definition starts_select : regex := seq [Bol; ws_star; lit_ci "SELECT"].

(** [query.split(';').map(s => s.trim()).filter(s => s.length > 0)
      .filter(stmt => /^\s*SELECT/i.test(stmt))]. *)
Definition extractSelectStatements (query : string) : list string :=
  let statements :=
    filter (fun s => (0 <? String.length s)%nat)
           (map Trim (Split ";" query)) in
  filter (fun stmt => IsMatch starts_select stmt) statements.

Definition NL : string := String LF EmptyString.

(** [finalQuery]: the batch, between the four statistics toggles when
    [captureStatistics] is set and the batch has no [SET STATISTICS] of its
    own. *)
Definition finalQuery (captureStatistics : bool) (query : string) : string :=
  if captureStatistics && negb (Contains (ToUpper query) "SET STATISTICS") then
    NL ++ "SET STATISTICS IO ON;" ++ NL ++ "SET STATISTICS TIME ON;" ++ NL ++
    query ++ NL ++ "SET STATISTICS IO OFF;" ++ NL ++ "SET STATISTICS TIME OFF;"
  else query.

(** [diagnosticInfo.statisticsMessages]. *)
Definition statisticsMessages (diagnosticMessages : list string) : list string :=
  filter (fun msg =>
            Contains msg "logical reads" || Contains msg "CPU time" ||
            Contains msg "elapsed time" || Contains msg "scan count" ||
            Contains msg "physical reads")
         diagnosticMessages.

(** [diagnosticInfo.warningMessages]. *)
Definition warningMessages (diagnosticMessages : list string) : list string :=
  filter (fun msg =>
            negb (Contains msg "logical reads") &&
            negb (Contains msg "CPU time") &&
            negb (Contains msg "elapsed time"))
         diagnosticMessages.

End DBA_ReadDataRun.

(* ================================================================== *)
(** ** Node tool execute_ddl: ExecuteDDLTool.run                       *)
(* ================================================================== *)

Module ExecuteDDLRun.
Import Text Regex Normalizer Js.

(** What [run] returns. *)
Record response : Type := mkResponse
  { success : bool;
    message : string;
    error : option string;
    rowsAffected : option Z;
    operationType : option string }.

(** [error.message] of an exception the model writes [name: message]. *)
Fixpoint drop (n : nat) (s : string) : string :=
  match n, s with
  | S n', String _ s' => drop n' s'
  | _, _ => s
  end.

Definition message_of (exn : string) : string :=
  if StartsWith exn "TypeError: " then drop 11 exn else exn.

(** The cascade of the [catch] block. *)
Definition safeErrorMessage (errorMessage : string) : string :=
  if Contains errorMessage "Invalid object name" then errorMessage
  else if Contains errorMessage "already exists" then "Object already exists"
  else if Contains errorMessage "does not exist" then "Object does not exist"
  else if Contains errorMessage "syntax error" then "DDL syntax error"
  else if Contains errorMessage "permission"
       then "Insufficient permissions for DDL operation"
  else "DDL execution failed".

Definition caught (errorMessage : string) : response :=
  mkResponse false ("Failed to execute DDL: " ++ safeErrorMessage errorMessage)
    (Some "DDL_EXECUTION_FAILED") None None.

(** The operation named in the message of a success: read off the text as
    submitted, trimmed and in upper case. *)
Definition operationType_of (ddl : string) : string :=
  let upperDDL := ToUpper (Trim ddl) in
  if StartsWith upperDDL "CREATE" then "CREATE operation"
  else if StartsWith upperDDL "ALTER" then "ALTER operation"
  else if StartsWith upperDDL "DROP" then "DROP operation"
  else if StartsWith upperDDL "TRUNCATE" then "TRUNCATE operation"
  else "DDL operation".

(** [request.query(ddl)]: the [rowsAffected] array of the result, or the
    message of the error it rejects with. *)
Definition database : Type := string -> Tools.reply (list Z).

(** [ExecuteDDLTool.run]: the response, and the texts sent to the database.
    Every exception, that of [validateDDL] included, is caught. *)
Definition run (this : ExecuteDDLTool.receiver) (db : database) (ddl : string)
  : response * list string :=
  match ExecuteDDLTool.validateDDL this ddl with
  | Throws exn => (caught (message_of exn), [])
  | Returns validation =>
      if negb (isValid validation) then
        (mkResponse false
           ("Security validation failed: " ++
            match Js.error validation with
            | Some reason => reason
            | None => "undefined"
            end)
           (Some "SECURITY_VALIDATION_FAILED") None None,
         [])
      else
        match db ddl with
        | Tools.Failed errorMessage => (caught errorMessage, [ddl])
        | Tools.Done affected =>
            let operationType := operationType_of ddl in
            (mkResponse true (operationType ++ " executed successfully.") None
               (Some (hd 0%Z affected)) (Some operationType),
             [ddl])
        end
  end.

End ExecuteDDLRun.

(* ================================================================== *)
(** ** Node/src/tools/CheckDBTool.ts                                   *)
(* ================================================================== *)

Module CheckDBTool.
Import Text.

Definition is_bracket (c : ascii) : bool := (c =? "[")%char || (c =? "]")%char.

(** [`[${databaseName.replace(/[\[\]]/g, "")}]`]. *)
Definition safeDbName (databaseName : string) : string :=
  "[" ++ Tools.keep_chars (fun c => negb (is_bracket c)) databaseName ++ "]".

(** [`DBCC CHECKDB(${safeDbName}) WITH NO_INFOMSGS, ALL_ERRORMSGS`]. *)
Definition query (databaseName : string) : string :=
  "DBCC CHECKDB(" ++ safeDbName databaseName ++ ") WITH NO_INFOMSGS, ALL_ERRORMSGS".

End CheckDBTool.

(* ================================================================== *)
(** * Properties                                                       *)
(* ================================================================== *)

Import Text Regex Normalizer Spec.

(** Splits a conjunction, and nothing else. *)
Ltac conj_split := match goal with |- _ /\ _ => split end.

(** Closes a goal between closed terms by running the code. *)
Ltac decide_eval := vm_compute; reflexivity.

(** ** The cases of SecurityValidatorTest/Program.cs *)

Section TestProgram.
Import SqlSecurityValidator.

Example test_valid_queries :
  map (fun q => IsValid (ValidateReadQuery q))
    [ "SELECT * FROM users";
      "SELECT name, email FROM customers WHERE id = 1";
      "SELECT COUNT(*) FROM orders WHERE date > '2023-01-01'";
      "SELECT u.name, o.total FROM users u JOIN orders o ON u.id = o.user_id" ]
  = [true; true; true; true].
Proof. decide_eval. Qed.

Example test_malicious_queries :
  map (fun q => IsValid (ValidateReadQuery q))
    [ "DROP TABLE users";
      "SELECT * FROM users; DROP TABLE customers;";
      "DELETE FROM users WHERE id = 1";
      "SELECT * FROM users UNION SELECT * FROM passwords";
      "INSERT INTO users VALUES ('hacker', 'password')";
      "EXEC sp_helpdb";
      "SELECT * FROM users WHERE name = 'test' + CHAR(59) + 'DROP TABLE users'";
      "UPDATE users SET password = 'hacked'";
      "/* comment */ SELECT * FROM users; DELETE FROM logs; -- end";
      "BULK INSERT users FROM 'C:\temp\data.csv'" ]
  = [false; false; false; false; false; false; false; false; false; false].
Proof. decide_eval. Qed.

Example test_update_queries :
  map (fun q => IsValid (ValidateUpdateQuery q))
    [ "UPDATE users SET name = 'John' WHERE id = 1";
      "UPDATE users SET name = 'John'";
      "DELETE FROM users WHERE id = 1";
      "UPDATE users SET name = 'John' WHERE id = 1; DROP TABLE logs;" ]
  = [true; false; false; false].
Proof. decide_eval. Qed.

(** The scanner does not take a keyword inside an identifier for the
    keyword, and the union rule of the Pattern Scanner fires. *)
Example test_boundaries :
  ValidateReadQuery "SELECT deleted_flag, created FROM settings" =
  mkValidationResult true "Query validation passed" /\
  ValidateReadQuery "SELECT * FROM a UNION SELECT * FROM passwords" =
  mkValidationResult false
    "Potentially malicious SQL pattern detected. Only simple SELECT queries are allowed.".
Proof. split; decide_eval. Qed.

End TestProgram.

(** ** Characters and strings *)

Section TextFacts.

Lemma to_upper_idem (c : ascii) : to_upper (to_upper c) = to_upper c.
Proof. destruct c as [[] [] [] [] [] [] [] []]; reflexivity. Qed.

Lemma is_word_to_upper (c : ascii) : is_word (to_upper c) = is_word c.
Proof. destruct c as [[] [] [] [] [] [] [] []]; reflexivity. Qed.

Lemma is_space_not_word (c : ascii) : is_space c = true -> is_word c = false.
Proof. destruct c as [[] [] [] [] [] [] [] []]; vm_compute; congruence. Qed.

Lemma append_assoc (a b c : string) : (a ++ b) ++ c = a ++ b ++ c.
Proof. induction a as [|x a IH]; simpl; [reflexivity | now rewrite IH]. Qed.

Lemma ToUpper_app (s t : string) : ToUpper (s ++ t) = ToUpper s ++ ToUpper t.
Proof. induction s as [|c s IH]; simpl; [reflexivity | now rewrite IH]. Qed.

Lemma ToUpper_idem (s : string) : ToUpper (ToUpper s) = ToUpper s.
Proof.
  induction s as [|c s IH]; simpl; [reflexivity|].
  now rewrite to_upper_idem, IH.
Qed.

Lemma Contains_unfold (s w : string) :
  Contains s w =
  StartsWith s w || match s with
                    | EmptyString => false
                    | String _ s' => Contains s' w
                    end.
Proof. destruct s; reflexivity. Qed.

Lemma StartsWith_app (w s : string) : StartsWith (w ++ s) w = true.
Proof.
  induction w as [|c w IH]; simpl; [reflexivity|].
  now rewrite Ascii.eqb_refl, IH.
Qed.

Lemma Contains_app (pre w post : string) : Contains (pre ++ w ++ post) w = true.
Proof.
  induction pre as [|c pre IH].
  - simpl. rewrite Contains_unfold, StartsWith_app. reflexivity.
  - change (String c pre ++ w ++ post) with (String c (pre ++ w ++ post)).
    rewrite Contains_unfold, IH. apply orb_true_r.
Qed.

End TextFacts.

(** ** The matcher on literals *)

Section RegexFacts.

Lemma last_char_app (prev : option ascii) (u v : string) :
  last_char prev (u ++ v) = last_char (last_char prev u) v.
Proof. revert prev; induction u as [|c u IH]; intros; simpl; auto. Qed.

(** A literal consumes any spelling of itself, whatever the letter case,
    and hands over to the continuation. *)
Lemma matches_lit_ci (w : string) :
  forall (w' rest : string) k prev,
    ToUpper w' = ToUpper w ->
    matches (lit_ci w) k prev (w' ++ rest) = k (last_char prev w') rest.
Proof.
  induction w as [|c w IH]; intros [|c' w'] rest k prev H; simpl in H;
    try discriminate.
  - reflexivity.
  - injection H as Hc Hw.
    change (matches (lit_ci (String c w)) k prev (String c' w' ++ rest))
      with (if (to_upper c' =? to_upper c)%char
            then matches (lit_ci w) k (Some c') (w' ++ rest) else false).
    rewrite Hc, Ascii.eqb_refl. cbn [last_char]. now apply IH.
Qed.

Lemma matches_lit_ci_prefix (w : string) :
  forall (s : string) k prev,
    (forall p r, k p r = true) ->
    StartsWith (ToUpper s) (ToUpper w) = true ->
    matches (lit_ci w) k prev s = true.
Proof.
  induction w as [|c w IH]; intros s k prev Hk H.
  - apply Hk.
  - destruct s as [|c' s]; simpl in H; [discriminate|].
    apply andb_true_iff in H as [Hc Hs].
    apply Ascii.eqb_eq in Hc.
    change (matches (lit_ci (String c w)) k prev (String c' s))
      with (if (to_upper c' =? to_upper c)%char
            then matches (lit_ci w) k (Some c') s else false).
    rewrite <- Hc, Ascii.eqb_refl. now apply IH.
Qed.

Lemma search_unfold (r : regex) (prev : option ascii) (s : string) :
  search r prev s =
  if matches r accept prev s then true
  else match s with
       | String c s' => search r (Some c) s'
       | EmptyString => false
       end.
Proof. destruct s; reflexivity. Qed.

(** A match may start after any prefix. *)
Lemma search_skip (r : regex) (pre s : string) :
  forall prev,
    search r (last_char prev pre) s = true -> search r prev (pre ++ s) = true.
Proof.
  induction pre as [|c pre IH]; intros prev H; [exact H|].
  change (String c pre ++ s) with (String c (pre ++ s)).
  rewrite search_unfold. rewrite (IH (Some c) H).
  now destruct (matches r accept prev _).
Qed.

(** A literal pattern without anchors is a case-insensitive substring
    test. *)
Lemma search_lit_ci (w s : string) :
  forall prev,
    ContainsIgnoreCase s w = true -> search (lit_ci w) prev s = true.
Proof.
  unfold ContainsIgnoreCase.
  induction s as [|c s IH]; intros prev H;
    rewrite Contains_unfold in H; rewrite search_unfold.
  - rewrite orb_false_r in H.
    rewrite (matches_lit_ci_prefix w "" accept prev); auto.
  - apply orb_true_iff in H as [H|H].
    + rewrite (matches_lit_ci_prefix w (String c s) accept prev); auto.
    + simpl ToUpper in H. rewrite (IH (Some c) H).
      now destruct (matches _ accept prev _).
Qed.

Lemma search_inv (r : regex) (s : string) :
  forall prev,
    search r prev s = true ->
    exists pre rest,
      s = pre ++ rest /\ matches r accept (last_char prev pre) rest = true.
Proof.
  induction s as [|c s IH]; intros prev H; rewrite search_unfold in H.
  - destruct (matches r accept prev "") eqn:E; [|discriminate].
    exists "", "". auto.
  - destruct (matches r accept prev (String c s)) eqn:E.
    + exists "", (String c s). auto.
    + destruct (IH (Some c) H) as (pre & rest & -> & Hm).
      exists (String c pre), rest. auto.
Qed.

Lemma last_char_None (pre : string) : last_char None pre = None -> pre = "".
Proof.
  destruct pre as [|c pre]; [reflexivity|]. simpl.
  assert (G : forall s x, last_char (Some x) s <> None).
  { induction s; simpl; intros; [discriminate | auto]. }
  intros H. now apply G in H.
Qed.

Lemma matches_lit_ci_inv (w : string) :
  forall (s : string) k prev,
    matches (lit_ci w) k prev s = true ->
    exists w' rest,
      s = w' ++ rest /\ ToUpper w' = ToUpper w /\
      k (last_char prev w') rest = true.
Proof.
  induction w as [|c w IH]; intros s k prev H.
  - exists "", s. auto.
  - destruct s as [|x s]; [discriminate|].
    change (matches (lit_ci (String c w)) k prev (String x s))
      with (if (to_upper x =? to_upper c)%char
            then matches (lit_ci w) k (Some x) s else false) in H.
    destruct (to_upper x =? to_upper c)%char eqn:E; [|discriminate].
    apply Ascii.eqb_eq in E.
    destruct (IH s k (Some x) H) as (w' & rest & -> & Hw & Hk).
    exists (String x w'), rest. simpl. rewrite E, Hw. auto.
Qed.

Lemma IsMatch_lit_ci (w s : string) :
  ContainsIgnoreCase s w = true -> IsMatch (lit_ci w) s = true.
Proof. apply search_lit_ci. Qed.

End RegexFacts.

(** ** The Keyword Scanner *)

Section KeywordScanner.

Lemma last_split (pre : string) :
  forall prev, pre <> "" ->
    exists p c, pre = p ++ String c "" /\ last_char prev pre = Some c.
Proof.
  induction pre as [|a pre IH]; intros prev Hne; [congruence|].
  destruct pre as [|b pre].
  - exists "", a. split; reflexivity.
  - destruct (IH (Some a)) as (p & c & Hp & Hl); [discriminate|].
    exists (String a p), c. split.
    + simpl. now rewrite <- Hp.
    + exact Hl.
Qed.

Lemma last_char_ToUpper (s : string) (prev : option ascii) :
  last_char (option_map to_upper prev) (ToUpper s)
  = option_map to_upper (last_char prev s).
Proof.
  revert prev. induction s as [|c s IH]; intros prev; simpl; [reflexivity|].
  apply (IH (Some c)).
Qed.

Lemma boundary_ToUpper (keyword text : string) :
  standalone_token keyword text -> standalone_token keyword (ToUpper text).
Proof.
  intros (pre & w & post & -> & Hw & Hb & Ha).
  exists (ToUpper pre), (ToUpper w), (ToUpper post).
  rewrite !ToUpper_app, ToUpper_idem. repeat split; auto.
  - unfold boundary_before in *.
    pose proof (last_char_ToUpper pre None) as G. simpl in G. rewrite G.
    destruct (last_char None pre); simpl; auto.
    now rewrite is_word_to_upper.
  - unfold boundary_after in *. destruct post; simpl; auto.
    now rewrite is_word_to_upper.
Qed.

Variable eol : regex.
Hypothesis eol_at_end : forall k prev, matches eol k prev "" = k prev "".
Hypothesis eol_only_at_end :
  forall k prev s, matches eol k prev s = true -> boundary_after s.

Lemma matches_keyword_tail (post : string) (prev : option ascii) :
  boundary_after post ->
  matches (alts [eol; Class is_space; not_word]) accept prev post = true.
Proof.
  intros Ha. cbn [alts matches].
  destruct post as [|c post].
  - rewrite eol_at_end. reflexivity.
  - simpl in Ha. unfold not_word. cbn [matches]. rewrite Ha. simpl.
    destruct (matches eol _ _ _); [reflexivity|].
    now destruct (is_space c).
Qed.

Lemma matches_keyword_body (keyword w post : string) (prev : option ascii) :
  ToUpper w = ToUpper keyword -> boundary_after post ->
  matches (seq [lit_ci keyword; alts [eol; Class is_space; not_word]])
          accept prev (w ++ post) = true.
Proof.
  intros Hw Ha. cbn [seq]. cbn [matches].
  rewrite (matches_lit_ci keyword w post _ prev Hw).
  now apply matches_keyword_tail.
Qed.

Lemma matches_keyword_head_start (k : option ascii -> string -> bool) (s : string) :
  k None s = true ->
  matches (alts [Bol; Class is_space; not_word]) k None s = true.
Proof. intros H. cbn [alts matches]. now rewrite H. Qed.

Lemma matches_keyword_head_char (k : option ascii -> string -> bool)
    (prev : option ascii) (c : ascii) (s : string) :
  is_word c = false -> k (Some c) s = true ->
  matches (alts [Bol; Class is_space; not_word]) k prev (String c s) = true.
Proof.
  intros Hc H. unfold not_word. cbn [alts matches]. rewrite Hc, H. simpl.
  destruct prev; [|destruct (k None _); [reflexivity|]];
    now destruct (is_space c).
Qed.

(** The pattern both languages build accepts every standalone occurrence. *)
Lemma keyword_pattern_standalone (keyword text : string) :
  standalone_token keyword text ->
  IsMatch (keyword_pattern eol keyword) text = true.
Proof.
  intros (pre & w & post & -> & Hw & Hb & Ha).
  unfold IsMatch, keyword_pattern.
  change (seq [alts [Bol; Class is_space; not_word]; lit_ci keyword;
               alts [eol; Class is_space; not_word]])
    with (Cat (alts [Bol; Class is_space; not_word])
              (seq [lit_ci keyword; alts [eol; Class is_space; not_word]])).
  destruct (string_dec pre "") as [->|Hne].
  - simpl append. rewrite search_unfold.
    change (matches (Cat ?a ?b) ?k ?p ?s) with (matches a (matches b k) p s).
    rewrite matches_keyword_head_start; [reflexivity|].
    now apply matches_keyword_body.
  - destruct (last_split pre None Hne) as (p & c & -> & Hl).
    unfold boundary_before in Hb. rewrite Hl in Hb.
    rewrite append_assoc. apply search_skip.
    change (String c "" ++ w ++ post) with (String c (w ++ post)).
    rewrite search_unfold.
    change (matches (Cat ?a ?b) ?k ?p ?s) with (matches a (matches b k) p s).
    rewrite matches_keyword_head_char; [reflexivity|exact Hb|].
    now apply matches_keyword_body.
Qed.

(** ... and nothing else. *)
Lemma matches_keyword_head_inv (k : option ascii -> string -> bool)
    (prev : option ascii) (s : string) :
  matches (alts [Bol; Class is_space; not_word]) k prev s = true ->
  (prev = None /\ k None s = true) \/
  (exists c s', s = String c s' /\ is_word c = false /\ k (Some c) s' = true).
Proof.
  unfold not_word. cbn [alts matches]. intros H.
  destruct prev as [p|].
  - destruct s as [|c s']; [discriminate|]. right. exists c, s'.
    destruct (is_space c) eqn:Es.
    + destruct (k (Some c) s') eqn:Ek.
      * auto using is_space_not_word.
      * destruct (is_word c); simpl in H; [discriminate | auto].
    + destruct (is_word c); simpl in H; [discriminate | auto].
  - destruct (k None s) eqn:E0; [now left|].
    destruct s as [|c s']; [discriminate|]. right. exists c, s'.
    destruct (is_space c) eqn:Es.
    + destruct (k (Some c) s') eqn:Ek.
      * auto using is_space_not_word.
      * destruct (is_word c); simpl in H; [discriminate | auto].
    + destruct (is_word c); simpl in H; [discriminate | auto].
Qed.

Lemma matches_keyword_tail_inv (prev : option ascii) (post : string) :
  matches (alts [eol; Class is_space; not_word]) accept prev post = true ->
  boundary_after post.
Proof.
  unfold not_word. cbn [alts matches]. intros H.
  destruct (matches eol accept prev post) eqn:E;
    [now apply (eol_only_at_end accept prev)|].
  destruct post as [|c post]; [exact I|]. simpl.
  destruct (is_space c) eqn:Es; [now apply is_space_not_word|].
  destruct (is_word c); simpl in H; [discriminate | reflexivity].
Qed.

Lemma keyword_pattern_only_standalone (keyword text : string) :
  IsMatch (keyword_pattern eol keyword) text = true ->
  standalone_token keyword text.
Proof.
  unfold IsMatch, keyword_pattern. intros H.
  apply search_inv in H as (pre & rest & -> & H).
  change (seq [alts [Bol; Class is_space; not_word]; lit_ci keyword;
               alts [eol; Class is_space; not_word]])
    with (Cat (alts [Bol; Class is_space; not_word])
              (Cat (lit_ci keyword) (alts [eol; Class is_space; not_word])))
    in H.
  change (matches (Cat ?a ?b) ?k ?p ?s) with (matches a (matches b k) p s) in H.
  apply matches_keyword_head_inv in H as [[Hp H]|(c & s' & -> & Hc & H)].
  - apply last_char_None in Hp. subst pre.
    change (matches (Cat ?a ?b) ?k ?p ?s) with (matches a (matches b k) p s) in H.
    apply matches_lit_ci_inv in H as (w & post & -> & Hw & H).
    apply matches_keyword_tail_inv in H.
    exists "", w, post. repeat split; auto.
  - change (matches (Cat ?a ?b) ?k ?p ?s) with (matches a (matches b k) p s) in H.
    apply matches_lit_ci_inv in H as (w & post & -> & Hw & H).
    apply matches_keyword_tail_inv in H.
    exists (pre ++ String c ""), w, post. repeat split; auto.
    + now rewrite append_assoc.
    + unfold boundary_before. rewrite last_char_app. exact Hc.
Qed.

End KeywordScanner.

Lemma EolNet_at_end : forall k prev, matches EolNet k prev "" = k prev "".
Proof. reflexivity. Qed.

Lemma EolJs_at_end : forall k prev, matches EolJs k prev "" = k prev "".
Proof. reflexivity. Qed.

Lemma EolNet_only_at_end :
  forall k prev s, matches EolNet k prev s = true -> boundary_after s.
Proof.
  intros k prev [|c [|d s]] H; simpl in *; try discriminate; [exact I|].
  destruct (c =? LF)%char eqn:E; [|discriminate].
  apply Ascii.eqb_eq in E. now subst c.
Qed.

Lemma EolJs_only_at_end :
  forall k prev s, matches EolJs k prev s = true -> boundary_after s.
Proof. intros k prev [|c s] H; simpl in *; [exact I | discriminate]. Qed.

(** The text under its upper-case form has the same standalone tokens. *)
Lemma ToUpper_split (t : string) :
  forall a b, ToUpper t = a ++ b ->
    exists a' b', t = a' ++ b' /\ ToUpper a' = a /\ ToUpper b' = b.
Proof.
  induction t as [|c t IH]; intros [|x a] b H; simpl in H.
  - exists "", "". auto.
  - discriminate.
  - exists "", (String c t). auto.
  - injection H as Hx H. destruct (IH a b H) as (a' & b' & -> & Ha & Hb).
    exists (String c a'), b'. simpl. rewrite Ha, Hx. auto.
Qed.

Lemma standalone_ToUpper_iff (keyword text : string) :
  standalone_token keyword (ToUpper text) <-> standalone_token keyword text.
Proof.
  split; [|apply boundary_ToUpper].
  intros (pre & w & post & H & Hw & Hb & Ha).
  apply ToUpper_split in H as (pre' & r & -> & <- & H).
  apply ToUpper_split in H as (w' & post' & -> & <- & <-).
  exists pre', w', post'. repeat split.
  - now rewrite <- Hw, ToUpper_idem.
  - unfold boundary_before in *.
    pose proof (last_char_ToUpper pre' None) as G. simpl in G.
    rewrite G in Hb. destruct (last_char None pre'); simpl in *; auto.
    now rewrite is_word_to_upper in Hb.
  - unfold boundary_after in *. destruct post'; simpl in *; auto.
    now rewrite is_word_to_upper in Ha.
Qed.

(** [find] returns the first element that satisfies the test. *)
Lemma find_split {A : Type} (f : A -> bool) (l : list A) (y : A) :
  find f l = Some y ->
  exists l1 l2, l = (l1 ++ y :: l2)%list /\ f y = true /\
                forall x, In x l1 -> f x = false.
Proof.
  induction l as [|a l IH]; simpl; [discriminate|].
  destruct (f a) eqn:E.
  - intros H. injection H as <-. exists [], l. simpl. tauto.
  - intros H. destruct (IH H) as (l1 & l2 & -> & Hy & Hl1).
    exists (a :: l1), l2. simpl. repeat split; auto.
    intros x [<-|Hx]; auto.
Qed.

Lemma find_first {A : Type} (f : A -> bool) (l : list A) (x : A) :
  In x l -> f x = true -> exists y, find f l = Some y /\ f y = true /\ In y l.
Proof.
  induction l as [|a l IH]; simpl; [tauto|].
  intros [->|Hin] Hx.
  - rewrite Hx. eauto.
  - destruct (f a) eqn:E; [eauto|].
    destruct (IH Hin Hx) as (y & Hy & Hfy & Hiny). eauto.
Qed.

(* ================================================================== *)
(** ** The Normalizer                                                  *)
(* ================================================================== *)

Section NormalizerFacts.
Import SqlSecurityValidator.

(** Induction that follows functions which look at two characters at a
    time. *)
Lemma string_pair_ind (P : string -> Prop) :
  P "" ->
  (forall c, P (String c "")) ->
  (forall c d s, P s -> P (String d s) -> P (String c (String d s))) ->
  forall s, P s.
Proof.
  intros H0 H1 H2 s.
  assert (G : P s /\ forall c, P (String c s)).
  { induction s as [|d s [IHs IHc]]; split; auto. }
  apply G.
Qed.

(** *** Comment stripping leaves a text without comment openers alone *)

Lemma strip_line_comments_pair (eol : ascii -> bool) (c d : ascii) (s : string) :
  strip_line_comments eol false (String c (String d s)) =
  if (c =? "-")%char && (d =? "-")%char
  then strip_line_comments eol true s
  else String c (strip_line_comments eol false (String d s)).
Proof. reflexivity. Qed.

Lemma strip_block_comments_pair (c d : ascii) (s : string) :
  strip_block_comments false (String c (String d s)) =
  if (c =? "/")%char && (d =? "*")%char then
    if Contains s "*/" then strip_block_comments true s
    else String c (strip_block_comments false (String d s))
  else String c (strip_block_comments false (String d s)).
Proof. reflexivity. Qed.

Lemma ReplaceDoubleSpace_pair (c d : ascii) (s : string) :
  ReplaceDoubleSpace (String c (String d s)) =
  if (c =? " ")%char && (d =? " ")%char
  then String " " (ReplaceDoubleSpace s)
  else String c (ReplaceDoubleSpace (String d s)).
Proof. reflexivity. Qed.

Lemma strip_line_comments_id (eol : ascii -> bool) (t : string) :
  Contains t "--" = false -> strip_line_comments eol false t = t.
Proof.
  induction t as [| c | c d t _ IH] using string_pair_ind; intros H;
    try reflexivity.
  rewrite Contains_unfold in H. apply orb_false_iff in H as [Hs Hc].
  cbn [StartsWith] in Hs. rewrite andb_true_r in Hs.
  rewrite strip_line_comments_pair.
  rewrite (Ascii.eqb_sym c), (Ascii.eqb_sym d), Hs.
  now rewrite (IH Hc).
Qed.

Lemma strip_block_comments_id (t : string) :
  Contains t "/*" = false -> strip_block_comments false t = t.
Proof.
  induction t as [| c | c d t _ IH] using string_pair_ind; intros H;
    try reflexivity.
  rewrite Contains_unfold in H. apply orb_false_iff in H as [Hs Hc].
  cbn [StartsWith] in Hs. rewrite andb_true_r in Hs.
  rewrite strip_block_comments_pair.
  rewrite (Ascii.eqb_sym c), (Ascii.eqb_sym d), Hs.
  now rewrite (IH Hc).
Qed.

Lemma RemoveComments_id (t : string) :
  Contains t "--" = false -> Contains t "/*" = false -> RemoveComments t = t.
Proof.
  intros H1 H2. unfold RemoveComments.
  rewrite (strip_line_comments_id is_LF t H1).
  now apply strip_block_comments_id.
Qed.

(** *** Characters of a text *)

Lemma ReplaceChar_id (a b : ascii) (s : string) :
  every (is_not a) s = true -> ReplaceChar a b s = s.
Proof.
  induction s as [|c s IH]; simpl; [reflexivity|]. unfold is_not at 1.
  destruct (c =? a)%char; simpl; [discriminate|].
  intros H. now rewrite IH.
Qed.

Lemma every_ReplaceChar_gone (a b : ascii) (s : string) :
  is_not a b = true -> every (is_not a) (ReplaceChar a b s) = true.
Proof.
  intros Hb. induction s as [|c s IH]; simpl; [reflexivity|].
  destruct (c =? a)%char eqn:E.
  - now rewrite Hb.
  - unfold is_not at 1. now rewrite E.
Qed.

Lemma every_ReplaceChar (P : ascii -> bool) (a b : ascii) (s : string) :
  P b = true -> every P s = true -> every P (ReplaceChar a b s) = true.
Proof.
  intros Hb. induction s as [|c s IH]; simpl; [reflexivity|].
  destruct (P c) eqn:E; [|discriminate]. intros H.
  destruct (c =? a)%char; [rewrite Hb | rewrite E]; auto.
Qed.

Lemma every_TrimStart (P : ascii -> bool) (s : string) :
  every P s = true -> every P (TrimStart s) = true.
Proof.
  induction s as [|c s IH]; simpl; [reflexivity|].
  destruct (P c) eqn:E; [|discriminate]. intros H.
  destruct (is_space c); [auto | simpl; now rewrite E].
Qed.

Lemma every_TrimEnd (P : ascii -> bool) (s : string) :
  every P s = true -> every P (TrimEnd s) = true.
Proof.
  induction s as [|c s IH]; simpl; [reflexivity|].
  destruct (P c) eqn:E; [|discriminate]. intros H. specialize (IH H).
  destruct (TrimEnd s) as [|d t].
  - destruct (is_space c); simpl; [reflexivity | now rewrite E].
  - cbn [every]. now rewrite E.
Qed.

Lemma every_ReplaceDoubleSpace (P : ascii -> bool) (s : string) :
  every P s = true -> every P (ReplaceDoubleSpace s) = true.
Proof.
  induction s as [| c | c d s IH1 IH2] using string_pair_ind; intros H;
    try exact H.
  rewrite ReplaceDoubleSpace_pair.
  assert (Hc : P c = true) by (simpl in H; destruct (P c); congruence).
  assert (Hds : every P (String d s) = true)
    by (simpl in H; rewrite Hc in H; exact H).
  destruct ((c =? " ")%char && (d =? " ")%char) eqn:E.
  - apply andb_true_iff in E as [Ec _]. apply Ascii.eqb_eq in Ec. subst c.
    cbn [every]. rewrite Hc. apply IH1.
    simpl in Hds. destruct (P d); congruence.
  - cbn [every]. rewrite Hc. now apply IH2.
Qed.

Lemma every_collapse_loop (P : ascii -> bool) (fuel : nat) :
  forall q, every P q = true -> every P (collapse_loop fuel q) = true.
Proof.
  induction fuel as [|fuel IH]; intros q H; simpl; [exact H|].
  destruct (Contains q "  "); [|exact H].
  apply IH. now apply every_ReplaceDoubleSpace.
Qed.

(** *** The double-space loop leaves by its condition *)

Lemma ReplaceDoubleSpace_length (s : string) :
  (String.length (ReplaceDoubleSpace s) <= String.length s)%nat /\
  (Contains s "  " = true ->
   String.length (ReplaceDoubleSpace s) < String.length s)%nat.
Proof.
  induction s as [| c | c d s IH1 IH2] using string_pair_ind.
  - split; [reflexivity | discriminate].
  - split; [reflexivity|]. intros H. cbn in H.
    rewrite ?andb_false_r in H. discriminate.
  - rewrite ReplaceDoubleSpace_pair.
    destruct ((c =? " ")%char && (d =? " ")%char) eqn:E.
    + destruct IH1 as [IHle _]. cbn [String.length]. split; [lia | intros _; lia].
    + cbn [String.length]. destruct IH2 as [IHle IHlt].
      cbn [String.length] in IHle, IHlt. split; [lia|].
      rewrite Contains_unfold. cbn [StartsWith].
      rewrite andb_true_r, (Ascii.eqb_sym " " c), (Ascii.eqb_sym " " d), E.
      rewrite orb_false_l. intros H. specialize (IHlt H). lia.
Qed.

Lemma collapse_loop_exits (fuel : nat) :
  forall q, (String.length q <= fuel)%nat ->
            Contains (collapse_loop fuel q) "  " = false.
Proof.
  induction fuel as [|fuel IH]; intros q Hq.
  - destruct q; [reflexivity | simpl in Hq; lia].
  - simpl. destruct (Contains q "  ") eqn:E; [|exact E].
    apply IH. destruct (ReplaceDoubleSpace_length q) as [_ Hlt].
    specialize (Hlt E). lia.
Qed.

Lemma CollapseSpaces_exits (q : string) :
  Contains (CollapseSpaces q) "  " = false.
Proof. apply collapse_loop_exits. reflexivity. Qed.

Lemma CollapseSpaces_id (q : string) :
  Contains q "  " = false -> CollapseSpaces q = q.
Proof.
  intros H. unfold CollapseSpaces. destruct (String.length q); simpl;
    [reflexivity | now rewrite H].
Qed.

End NormalizerFacts.

Section TrimFacts.

Lemma TrimStart_length (s : string) :
  (String.length (TrimStart s) <= String.length s)%nat.
Proof.
  induction s as [|c s IH]; simpl; [lia|].
  destruct (is_space c); simpl; lia.
Qed.

(** A text is its own [TrimStart] exactly when it does not start with
    white space. *)
Lemma TrimStart_fixed_head (c : ascii) (s : string) :
  TrimStart (String c s) = String c s <-> is_space c = false.
Proof.
  simpl. destruct (is_space c); split; try congruence.
  intros H. pose proof (TrimStart_length s) as L. rewrite H in L.
  simpl in L. lia.
Qed.

Lemma TrimStart_idem (s : string) : TrimStart (TrimStart s) = TrimStart s.
Proof.
  induction s as [|c s IH]; simpl; [reflexivity|].
  destruct (is_space c) eqn:E; [exact IH|]. simpl. now rewrite E.
Qed.

Lemma TrimEnd_cons (c : ascii) (s : string) :
  TrimEnd (String c s) =
  match TrimEnd s with
  | EmptyString => if is_space c then EmptyString else String c EmptyString
  | t => String c t
  end.
Proof. reflexivity. Qed.

(** A text is its own [TrimEnd] exactly when it does not end with white
    space. *)
Lemma TrimEnd_fixed_cons (c : ascii) (s : string) :
  TrimEnd (String c s) = String c s <->
  (s = "" /\ is_space c = false) \/ (s <> "" /\ TrimEnd s = s).
Proof.
  rewrite TrimEnd_cons. split.
  - destruct (TrimEnd s) as [|d t] eqn:E.
    + destruct (is_space c); [discriminate|].
      intros H. injection H as <-. now left.
    + intros H. injection H as <-. right. split; [discriminate | reflexivity].
  - intros [[-> Hc]|[Hne H]].
    + simpl. now rewrite Hc.
    + rewrite H. destruct s; [congruence | reflexivity].
Qed.

Lemma TrimEnd_idem (s : string) : TrimEnd (TrimEnd s) = TrimEnd s.
Proof.
  induction s as [|c s IH]; [reflexivity|].
  rewrite TrimEnd_cons. destruct (TrimEnd s) as [|d t] eqn:E.
  - destruct (is_space c) eqn:Ec; [reflexivity|]. simpl. now rewrite Ec.
  - apply TrimEnd_fixed_cons. right. split; [discriminate | exact IH].
Qed.

Lemma TrimStart_TrimEnd (s : string) :
  TrimStart s = s -> TrimStart (TrimEnd s) = TrimEnd s.
Proof.
  destruct s as [|c s]; [reflexivity|]. intros H.
  apply TrimStart_fixed_head in H. rewrite TrimEnd_cons.
  destruct (TrimEnd s); [rewrite H|]; apply TrimStart_fixed_head; exact H.
Qed.

Lemma Trim_fixed (u : string) :
  TrimStart (Trim u) = Trim u /\ TrimEnd (Trim u) = Trim u.
Proof.
  unfold Trim. split.
  - apply TrimStart_TrimEnd, TrimStart_idem.
  - apply TrimEnd_idem.
Qed.

Lemma Trim_id (t : string) : TrimStart t = t -> TrimEnd t = t -> Trim t = t.
Proof. intros H1 H2. unfold Trim. now rewrite H1, H2. Qed.

Lemma space_is_space (c : ascii) : is_space c = false -> (c =? " ")%char = false.
Proof.
  unfold is_space. destruct (c =? " ")%char; [|reflexivity].
  now rewrite orb_true_r.
Qed.

Lemma ReplaceDoubleSpace_nonempty (s : string) :
  s <> "" -> ReplaceDoubleSpace s <> "".
Proof.
  destruct s as [|c [|d s]]; try congruence; intros _.
  - discriminate.
  - rewrite ReplaceDoubleSpace_pair.
    destruct ((c =? " ")%char && (d =? " ")%char); discriminate.
Qed.

Lemma TrimStart_ReplaceDoubleSpace (s : string) :
  TrimStart s = s -> TrimStart (ReplaceDoubleSpace s) = ReplaceDoubleSpace s.
Proof.
  destruct s as [|c [|d s]]; try (intros H; exact H).
  intros H. apply TrimStart_fixed_head in H.
  rewrite ReplaceDoubleSpace_pair, (space_is_space c H). cbn [andb].
  now apply TrimStart_fixed_head.
Qed.

Lemma TrimEnd_ReplaceDoubleSpace (s : string) :
  TrimEnd s = s -> TrimEnd (ReplaceDoubleSpace s) = ReplaceDoubleSpace s.
Proof.
  induction s as [| c | c d s IH1 IH2] using string_pair_ind;
    intros H; try exact H.
  apply TrimEnd_fixed_cons in H as [[H _]|[_ H]]; [discriminate|].
  rewrite ReplaceDoubleSpace_pair.
  destruct ((c =? " ")%char && (d =? " ")%char) eqn:E.
  - apply andb_true_iff in E as [_ Ed]. apply Ascii.eqb_eq in Ed. subst d.
    apply TrimEnd_fixed_cons in H as [[_ H]|[Hne H]]; [discriminate|].
    apply TrimEnd_fixed_cons. right. split.
    + now apply ReplaceDoubleSpace_nonempty.
    + now apply IH1.
  - apply TrimEnd_fixed_cons. right. split.
    + apply ReplaceDoubleSpace_nonempty. discriminate.
    + now apply IH2.
Qed.

Lemma collapse_loop_trimmed (fuel : nat) :
  forall q, TrimStart q = q -> TrimEnd q = q ->
    TrimStart (collapse_loop fuel q) = collapse_loop fuel q /\
    TrimEnd (collapse_loop fuel q) = collapse_loop fuel q.
Proof.
  induction fuel as [|fuel IH]; intros q H1 H2; simpl; [now split|].
  destruct (Contains q "  "); [|now split].
  apply IH.
  - now apply TrimStart_ReplaceDoubleSpace.
  - now apply TrimEnd_ReplaceDoubleSpace.
Qed.

End TrimFacts.

Section Idempotence.
Import SqlSecurityValidator.

(** What [cleanQuery_of] guarantees of its result. *)
Lemma cleanQuery_of_shape (s : string) :
  let t := cleanQuery_of s in
  every (is_not TAB) t = true /\ every (is_not LF) t = true /\
  every (is_not CR) t = true /\
  TrimStart t = t /\ TrimEnd t = t /\ Contains t "  " = false.
Proof.
  unfold cleanQuery_of, CollapseSpaces.
  set (r := RemoveComments s).
  set (u := ReplaceChar CR " " (ReplaceChar LF " " (ReplaceChar TAB " " r))).
  assert (Hu : every (is_not TAB) u = true /\ every (is_not LF) u = true /\
               every (is_not CR) u = true).
  { unfold u. repeat split.
    - do 2 (apply every_ReplaceChar; [reflexivity|]).
      now apply every_ReplaceChar_gone.
    - apply every_ReplaceChar; [reflexivity|].
      now apply every_ReplaceChar_gone.
    - now apply every_ReplaceChar_gone. }
  destruct Hu as (Ht & Hl & Hc).
  assert (Hv : forall a, every (is_not a) u = true ->
                         every (is_not a) (Trim u) = true).
  { intros a H. unfold Trim. now apply every_TrimEnd, every_TrimStart. }
  destruct (Trim_fixed u) as [T1 T2].
  destruct (collapse_loop_trimmed (String.length (Trim u)) (Trim u) T1 T2)
    as [C1 C2].
  cbv zeta. repeat split; auto using every_collapse_loop.
  apply collapse_loop_exits. reflexivity.
Qed.

(** A text of that shape, with no comment opener, is left as it is. *)
Lemma cleanQuery_of_fixed (t : string) :
  Contains t "--" = false -> Contains t "/*" = false ->
  every (is_not TAB) t = true -> every (is_not LF) t = true ->
  every (is_not CR) t = true ->
  TrimStart t = t -> TrimEnd t = t -> Contains t "  " = false ->
  cleanQuery_of t = t.
Proof.
  intros Hd Hb Ht Hl Hc T1 T2 Hs. unfold cleanQuery_of.
  rewrite (RemoveComments_id t Hd Hb).
  rewrite (ReplaceChar_id TAB " " t Ht), (ReplaceChar_id LF " " t Hl),
    (ReplaceChar_id CR " " t Hc).
  rewrite (Trim_id t T1 T2). now apply CollapseSpaces_id.
Qed.

(** C6, as amended.  Normalizing a normalized text returns it unchanged
    whenever the normalized text holds no comment opener, [--] or [/*]
    (stripping comments can bring the two halves of an opener together). *)
Theorem C6_normalization_idempotent_without_openers (s : string) :
  Contains (cleanQuery_of s) "--" = false ->
  Contains (cleanQuery_of s) "/*" = false ->
  cleanQuery_of (cleanQuery_of s) = cleanQuery_of s.
Proof.
  intros Hd Hb.
  destruct (cleanQuery_of_shape s) as (Ht & Hl & Hc & T1 & T2 & Hs).
  now apply cleanQuery_of_fixed.
Qed.

Lemma C6_witness :
  cleanQuery_of (cleanQuery_of "  SELECT  *
    FROM t -- all rows
    WHERE a = 1 /* one */  ")
  = "SELECT * FROM t WHERE a = 1".
Proof.
  rewrite (C6_normalization_idempotent_without_openers _);
    vm_compute; reflexivity.
Defined.

(** C6, as stated, fails: stripping the block comment of [-/**/-] leaves
    [--], which the next normalization strips as a line comment. *)
Lemma C6_counterexample :
  cleanQuery_of "-/**/-" = "--" /\
  cleanQuery_of (cleanQuery_of "-/**/-") <> cleanQuery_of "-/**/-".
Proof. split; [vm_compute; reflexivity | vm_compute; discriminate]. Qed.

End Idempotence.

(* ================================================================== *)
(** ** ReadOnlyQuery and GuardedMutation                               *)
(* ================================================================== *)

Section CSharpValidators.
Import SqlSecurityValidator.

Ltac case_check :=
  match goal with
  | |- context [if ?b then _ else _] => destruct b eqn:?
  | |- context [match first_dangerous ?l ?u with _ => _ end] =>
      destruct (first_dangerous l u) eqn:?
  end.

(** [ValidateReadQuery] is its list of checks, run in order. *)
Lemma ValidateReadQuery_stages (sql : string) :
  ValidateReadQuery sql = run_stages read_pipeline sql.
Proof.
  unfold ValidateReadQuery, read_pipeline, run_stages, st_non_blank,
    st_non_empty_normalized, st_leading_verb, st_keyword_scanner,
    st_pattern_scanner, st_single_statement, st_char_conversion,
    st_max_length, normalized, reject_when, too_long.
  repeat (case_check; cbn [option_map negb]; try reflexivity).
Qed.

(** [ValidateUpdateQuery] is its list of checks, run in order. *)
Lemma ValidateUpdateQuery_stages (sql : string) :
  ValidateUpdateQuery sql = run_stages update_pipeline sql.
Proof.
  unfold ValidateUpdateQuery, update_pipeline, run_stages, st_non_blank,
    st_non_empty_normalized, st_leading_verb, st_guard_clause,
    st_keyword_scanner, st_single_statement, st_max_length, normalized,
    reject_when, too_long.
  repeat (case_check; cbn [option_map negb]; try reflexivity).
Qed.

(** The scanner finds a keyword exactly when it stands alone in the text. *)
Lemma keyword_found_iff (text keyword : string) :
  keyword_found (ToUpper text) keyword = true <-> standalone_token keyword text.
Proof.
  unfold keyword_found. rewrite <- standalone_ToUpper_iff. split.
  - apply keyword_pattern_only_standalone. exact EolNet_only_at_end.
  - apply keyword_pattern_standalone. exact EolNet_at_end.
Qed.

Lemma first_dangerous_first_standalone (denylist : list string)
    (text first : string) :
  first_dangerous denylist (ToUpper text) = Some first ->
  first_standalone denylist text first.
Proof.
  intros H. apply find_split in H as (l1 & l2 & -> & Hy & Hl1).
  exists l1, l2. repeat split; [now apply keyword_found_iff|].
  intros k Hk Hst. apply keyword_found_iff in Hst.
  rewrite (Hl1 k Hk) in Hst. discriminate.
Qed.

(** So the scan of a denylist that holds a standalone keyword of the text
    finds the first such keyword. *)
Lemma first_dangerous_standalone (denylist : list string) (keyword text : string) :
  In keyword denylist -> standalone_token keyword text ->
  exists first,
    first_dangerous denylist (ToUpper text) = Some first /\
    first_standalone denylist text first.
Proof.
  intros Hin Hst. apply keyword_found_iff in Hst.
  destruct (find_first _ _ _ Hin Hst) as (first & Hf & _ & _).
  exists first. split; [exact Hf|]. now apply first_dangerous_first_standalone.
Qed.

End CSharpValidators.

(** ** Claims on the C# validators *)

Section CSharpClaims.
Import SqlSecurityValidator.

(** C1, as amended.  [ValidateReadQuery] runs, in this order: non-blank
    input, non-empty normalized text, leading verb SELECT, Keyword Scanner,
    Pattern Scanner on the text as submitted, single statement, character
    conversion, length of the text as submitted.  [ValidateUpdateQuery]
    runs: non-blank input, non-empty normalized text, leading verb UPDATE,
    guard clause, Keyword Scanner on the denylist without SET, single
    statement, length of the text as submitted; the Pattern Scanner is not
    among its checks. *)
Theorem C1_update_path_has_no_pattern_scanner :
  (forall sql,
      ValidateReadQuery sql = run_stages read_pipeline sql /\
      ValidateUpdateQuery sql = run_stages update_pipeline sql) /\
  In st_pattern_scanner read_pipeline /\
  ~ In st_pattern_scanner update_pipeline.
Proof.
  split; [|split].
  - intros sql. split.
    + apply ValidateReadQuery_stages.
    + apply ValidateUpdateQuery_stages.
  - unfold read_pipeline. simpl. tauto.
  - unfold update_pipeline. intros H.
    assert (D : forall st : stage, st = st_pattern_scanner ->
                st "@@" = Some
                  "Potentially malicious SQL pattern detected. Only simple SELECT queries are allowed.").
    { intros st ->. decide_eval. }
    simpl in H.
    repeat (destruct H as [H|H];
            [apply D in H; vm_compute in H; discriminate|]).
    exact H.
Qed.

(** C1, as stated, fails: a text on which a rule of the Pattern Scanner
    matches (here [@@]) is accepted by the UPDATE path. *)
Lemma C1_counterexample :
  pattern_detected "UPDATE t SET a = @@VERSION WHERE id = 1" = true /\
  validate GuardedMutation "UPDATE t SET a = @@VERSION WHERE id = 1" = Accepted.
Proof. split; decide_eval. Qed.

(** C3, as amended.  Once the checks before it pass, the guard-clause check
    is the containment of [ WHERE ], with a space on either side and in any
    letter case, in the normalized text, from which comments are already
    stripped: without it the text is rejected with the missing-guard
    reason, with it the text is never rejected for that reason. *)
Theorem C3_guard_clause_on_normalized_text (sql : string) :
  IsNullOrWhiteSpace sql = false ->
  IsNullOrWhiteSpace (cleanQuery_of sql) = false ->
  StartsWith (ToUpper (cleanQuery_of sql)) "UPDATE" = true ->
  (Contains (ToUpper (cleanQuery_of sql)) " WHERE " = false ->
   ValidateUpdateQuery sql =
   mkValidationResult false
     "UPDATE queries must include a WHERE clause for security reasons") /\
  (Contains (ToUpper (cleanQuery_of sql)) " WHERE " = true ->
   Message (ValidateUpdateQuery sql) <>
   "UPDATE queries must include a WHERE clause for security reasons").
Proof.
  intros H1 H2 H3. unfold ValidateUpdateQuery. rewrite H1, H2, H3.
  cbn [negb]. split; intros H4; rewrite H4; cbn [negb].
  - reflexivity.
  - destruct (first_dangerous _ _); [simpl; discriminate|].
    destruct (multiple_statements _); [simpl; discriminate|].
    destruct (too_long _); simpl; discriminate.
Qed.

(** A WHERE inside a string literal satisfies the guard-clause check. *)
Lemma C3_witness :
  Message (ValidateUpdateQuery "UPDATE t SET a = ' WHERE '") <>
  "UPDATE queries must include a WHERE clause for security reasons".
Proof.
  apply (C3_guard_clause_on_normalized_text "UPDATE t SET a = ' WHERE '");
    vm_compute; reflexivity.
Defined.

(** C3, as stated, fails: a WHERE inside a comment does not satisfy the
    check, nor does a WHERE token that has no space on both sides. *)
Lemma C3_counterexample :
  (Contains "UPDATE t SET a = 1 /* WHERE */" "WHERE" = true /\
   ValidateUpdateQuery "UPDATE t SET a = 1 /* WHERE */" =
   mkValidationResult false
     "UPDATE queries must include a WHERE clause for security reasons") /\
  (Contains "UPDATE t SET a = 1 WHERE(id = 1)" "WHERE" = true /\
   ValidateUpdateQuery "UPDATE t SET a = 1 WHERE(id = 1)" =
   mkValidationResult false
     "UPDATE queries must include a WHERE clause for security reasons").
Proof. repeat split; decide_eval. Qed.

(** What the obfuscation rules of the Pattern Scanner match is rejected
    too: they are among [DangerousPatterns]. *)
Lemma obfuscation_rule_rejected (sql : string) :
  obfuscation_rule_matches sql = true ->
  IsValid (ValidateReadQuery sql) = false.
Proof.
  intros H.
  assert (Hp : pattern_detected sql = true).
  { unfold obfuscation_rule_matches in H. apply existsb_exists in H.
    destruct H as (r & Hin & Hr).
    unfold pattern_detected. apply existsb_exists. exists r. split; [|exact Hr].
    unfold DangerousPatterns. simpl in Hin |- *. tauto. }
  unfold ValidateReadQuery. rewrite Hp.
  destruct (IsNullOrWhiteSpace sql); [reflexivity|].
  destruct (IsNullOrWhiteSpace (cleanQuery_of sql)); [reflexivity|].
  destruct (negb _); [reflexivity|].
  destruct (first_dangerous _ _); reflexivity.
Qed.

(** C9.  Under ReadOnlyQuery a text that contains [CHAR(], [NCHAR(] or
    [ASCII(] in any letter case, anywhere in the text as submitted, is
    rejected; when the checks ordered before pass, the reason is the
    character-conversion one.  No concatenation operator is asked for. *)
Theorem C9_char_conversion_rejected (sql : string) :
  ContainsIgnoreCase sql "CHAR(" = true \/
  ContainsIgnoreCase sql "NCHAR(" = true \/
  ContainsIgnoreCase sql "ASCII(" = true ->
  IsValid (ValidateReadQuery sql) = false /\
  (read_reaches_char_conversion sql ->
   ValidateReadQuery sql =
   mkValidationResult false
     "Character conversion functions are not allowed as they may be used for obfuscation.").
Proof.
  intros H.
  assert (Hc : char_conversion sql = true).
  { unfold char_conversion.
    destruct H as [H|[H|H]]; rewrite H; simpl; now rewrite ?orb_true_r. }
  split.
  - unfold ValidateReadQuery. rewrite Hc.
    destruct (IsNullOrWhiteSpace sql); [reflexivity|].
    destruct (IsNullOrWhiteSpace (cleanQuery_of sql)); [reflexivity|].
    destruct (negb _); [reflexivity|].
    destruct (first_dangerous _ _); [reflexivity|].
    destruct (pattern_detected sql); [reflexivity|].
    destruct (multiple_statements _); reflexivity.
  - intros (H1 & H2 & H3 & H4 & H5 & H6).
    unfold ValidateReadQuery. now rewrite H1, H2, H3, H4, H5, H6, Hc.
Qed.

(** [SELECT CHAR(65)] has no concatenation, matches none of the obfuscation
    rules of the Pattern Scanner, and is rejected; so is a [CHAR(] that
    lies in a comment. *)
Lemma C9_witness :
  obfuscation_rule_matches "SELECT CHAR(65)" = false /\
  ValidateReadQuery "SELECT CHAR(65)" =
  mkValidationResult false
    "Character conversion functions are not allowed as they may be used for obfuscation." /\
  ValidateReadQuery "SELECT 1 -- char(" =
  mkValidationResult false
    "Character conversion functions are not allowed as they may be used for obfuscation.".
Proof.
  split; [vm_compute; reflexivity|]. split.
  - apply (C9_char_conversion_rejected "SELECT CHAR(65)").
    + left. vm_compute. reflexivity.
    + unfold read_reaches_char_conversion.
      repeat conj_split; vm_compute; reflexivity.
  - apply (C9_char_conversion_rejected "SELECT 1 -- char(").
    + left. vm_compute. reflexivity.
    + unfold read_reaches_char_conversion.
      repeat conj_split; vm_compute; reflexivity.
Defined.

End CSharpClaims.

(* ================================================================== *)
(** ** DiagnosticBatch and DataDefinition                              *)
(* ================================================================== *)

Section NodeValidators.
Import Js.

Lemma clean_empty : clean "" = "".
Proof. reflexivity. Qed.

Lemma is_empty_false_of_clean (q : string) :
  is_empty (clean q) = false -> is_empty q = false.
Proof. destruct q; [rewrite clean_empty; auto | reflexivity]. Qed.

Lemma standalone_nonempty (keyword text : string) :
  is_empty keyword = false -> standalone_token keyword text ->
  is_empty text = false.
Proof.
  intros Hk (pre & w & post & -> & Hw & _ & _).
  destruct pre; [|reflexivity]. destruct w; [|reflexivity].
  destruct keyword; simpl in *; congruence.
Qed.

Lemma js_keyword_found_iff (text keyword : string) :
  keyword_found (ToUpper text) keyword = true <-> standalone_token keyword text.
Proof.
  unfold keyword_found. rewrite <- standalone_ToUpper_iff. split.
  - apply keyword_pattern_only_standalone. exact EolJs_only_at_end.
  - apply keyword_pattern_standalone. exact EolJs_at_end.
Qed.

Lemma js_first_dangerous_standalone (denylist : list string)
    (keyword text : string) :
  In keyword denylist -> standalone_token keyword text ->
  exists first,
    first_dangerous denylist (ToUpper text) = Some first /\
    first_standalone denylist text first.
Proof.
  intros Hin Hst. apply js_keyword_found_iff in Hst.
  destruct (find_first _ _ _ Hin Hst) as (first & Hf & _ & _).
  exists first. split; [exact Hf|].
  apply find_split in Hf as (l1 & l2 & -> & Hy & Hl1).
  exists l1, l2. repeat split; [now apply js_keyword_found_iff|].
  intros k Hk Hk'. apply js_keyword_found_iff in Hk'.
  rewrite (Hl1 k Hk) in Hk'. discriminate.
Qed.

Lemma DBA_keywords_nonempty (keyword : string) :
  In keyword DBA_ReadDataTool.DANGEROUS_KEYWORDS -> is_empty keyword = false.
Proof.
  unfold DBA_ReadDataTool.DANGEROUS_KEYWORDS. simpl.
  intros H. repeat (destruct H as [<-|H]; [reflexivity|]). contradiction.
Qed.

(** On the tool as constructed, [validateDDL] ends with an exception as soon
    as the text survives comment stripping: [this.ALLOWED_DDL_KEYWORDS] is
    [undefined]. *)
Lemma validateDDL_new_instance_throws (ddl : string) :
  is_empty (clean ddl) = false ->
  ExecuteDDLTool.validateDDL ExecuteDDLTool.new_ExecuteDDLTool ddl
  = Throws TypeError_some.
Proof.
  intros H. unfold ExecuteDDLTool.validateDDL.
  rewrite (is_empty_false_of_clean ddl H), H. reflexivity.
Qed.

(** The other three validators end with a verdict on every text. *)
Lemma three_validators_never_raise (this : ExecuteDDLTool.receiver)
    (op : OperationClass) (q : string) :
  op <> DataDefinition ->
  validate_on this op q = Accepted \/ exists reason, validate_on this op q = Rejected reason.
Proof.
  intros Hop. destruct op; try congruence; unfold validate_on.
  - unfold of_result. destruct (SqlSecurityValidator.IsValid _); eauto.
  - unfold of_result. destruct (SqlSecurityValidator.IsValid _); eauto.
  - unfold of_verdict. destruct (isValid _); eauto.
Qed.

(** ... and reject a text that is empty once comments are stripped. *)
Lemma empty_after_stripping_rejected (q : string) :
  (IsNullOrWhiteSpace (SqlSecurityValidator.cleanQuery_of q) = true ->
   SqlSecurityValidator.IsValid (SqlSecurityValidator.ValidateReadQuery q) = false /\
   SqlSecurityValidator.IsValid (SqlSecurityValidator.ValidateUpdateQuery q) = false) /\
  (is_empty (clean q) = true ->
   isValid (DBA_ReadDataTool.validateDBAQuery q) = false).
Proof.
  split.
  - intros H. unfold SqlSecurityValidator.ValidateReadQuery,
      SqlSecurityValidator.ValidateUpdateQuery. rewrite H.
    destruct (IsNullOrWhiteSpace q); split; reflexivity.
  - intros H. unfold DBA_ReadDataTool.validateDBAQuery. rewrite H.
    destruct (is_empty q); reflexivity.
Qed.

End NodeValidators.

Section NodeClaims.
Import Js.

(** C2, as amended.  A diagnostic batch is accepted exactly when it is not
    empty, before and after normalization, holds no denylisted keyword,
    matches no denied pattern, is at most 50,000 characters long and its
    normalized text as a whole contains, anywhere, one of [SELECT],
    [SET STATISTICS], [SET SHOWPLAN], [DBCC SHOW_STATISTICS]; the candidate
    statements are not checked one by one. *)
Theorem C2_diagnostic_batch_checked_as_a_whole (query : string) :
  validate DiagnosticBatch query = Accepted <->
  is_empty query = false /\
  is_empty (clean query) = false /\
  first_dangerous DBA_ReadDataTool.DANGEROUS_KEYWORDS (ToUpper (clean query)) = None /\
  pattern_detected DBA_ReadDataTool.DANGEROUS_PATTERNS query = false /\
  IsMatch DBA_ReadDataTool.valid_operation (ToUpper (clean query)) = true /\
  (Length query <= 50000)%Z.
Proof.
  unfold validate, validate_on, DBA_ReadDataTool.validateDBAQuery, too_long.
  destruct (is_empty query); [simpl; intuition discriminate|].
  destruct (is_empty (clean query)); [simpl; intuition discriminate|].
  destruct (first_dangerous _ _); [simpl; intuition discriminate|].
  destruct (pattern_detected _ _); [simpl; intuition discriminate|].
  destruct (IsMatch _ _); [|simpl; intuition discriminate].
  cbn [negb].
  destruct (Length query >? 50000)%Z eqn:E; simpl.
  - apply Z.gtb_lt in E. split; [discriminate|]. intros (_&_&_&_&_&H). lia.
  - assert (Length query <= 50000)%Z.
    { destruct (Z.gtb_spec (Length query) 50000); [discriminate | lia]. }
    tauto.
Qed.

(** C2, as stated, fails: the second candidate of this accepted batch is
    neither a SELECT nor a diagnostic toggle. *)
Lemma C2_counterexample :
  validate DiagnosticBatch "SELECT 1; EXEC sp_who" = Accepted /\
  candidate_statements (clean "SELECT 1; EXEC sp_who") = ["SELECT 1"; "EXEC sp_who"] /\
  diagnostic_candidate "EXEC sp_who" = false.
Proof. repeat split; decide_eval. Qed.

(** C4, as amended.  In an ASCII text, a denylisted keyword that stands
    alone in the normalized text makes ReadOnlyQuery and DiagnosticBatch
    reject.  The reason names the first keyword of the denylist, in the
    order of the list, that stands alone in the normalized text; for
    ReadOnlyQuery provided the checks ordered before the scanner pass (the
    text is not blank and starts with SELECT), otherwise the reason is that
    of the earlier check.  The text is ASCII because the scanners look at
    the upper-cased text, and upper-casing turns some letters outside ASCII
    into ASCII letters, which can then stand next to the keyword. *)
Theorem C4_standalone_keyword_rejected (keyword q : string) :
  every is_ascii q = true ->
  (In keyword SqlSecurityValidator.DangerousKeywords ->
   standalone_token keyword (SqlSecurityValidator.cleanQuery_of q) ->
   SqlSecurityValidator.IsValid (SqlSecurityValidator.ValidateReadQuery q) = false /\
   (IsNullOrWhiteSpace q = false ->
    StartsWith (ToUpper (SqlSecurityValidator.cleanQuery_of q)) "SELECT" = true ->
    exists first,
      first_standalone SqlSecurityValidator.DangerousKeywords
        (SqlSecurityValidator.cleanQuery_of q) first /\
      SqlSecurityValidator.ValidateReadQuery q =
      SqlSecurityValidator.mkValidationResult false
        (SqlSecurityValidator.read_keyword_message first))) /\
  (In keyword DBA_ReadDataTool.DANGEROUS_KEYWORDS ->
   standalone_token keyword (clean q) ->
   exists first,
     first_standalone DBA_ReadDataTool.DANGEROUS_KEYWORDS (clean q) first /\
     DBA_ReadDataTool.validateDBAQuery q =
     rejected (DBA_ReadDataTool.keyword_message first)).
Proof.
  intros _. split.
  - intros Hin Hst.
    destruct (first_dangerous_standalone _ _ _ Hin Hst) as (first & Hf & Hfs).
    split.
    + unfold SqlSecurityValidator.ValidateReadQuery. rewrite Hf.
      destruct (IsNullOrWhiteSpace q); [reflexivity|].
      destruct (IsNullOrWhiteSpace _); [reflexivity|].
      destruct (negb _); reflexivity.
    + intros H1 H3. exists first. split; [exact Hfs|].
      unfold SqlSecurityValidator.ValidateReadQuery. rewrite H1, H3, Hf.
      assert (H2 : IsNullOrWhiteSpace (SqlSecurityValidator.cleanQuery_of q) = false).
      { destruct (SqlSecurityValidator.cleanQuery_of q) as [|c s];
          [discriminate|].
        simpl in H3. apply andb_true_iff in H3 as [Hc _].
        unfold IsNullOrWhiteSpace. cbn [all_space].
        destruct c as [[] [] [] [] [] [] [] []]; vm_compute in Hc;
          try discriminate Hc; reflexivity. }
      now rewrite H2.
  - intros Hin Hst.
    destruct (js_first_dangerous_standalone _ _ _ Hin Hst) as (first & Hf & Hfs).
    exists first. split; [exact Hfs|].
    pose proof (standalone_nonempty _ _ (DBA_keywords_nonempty _ Hin) Hst) as H2.
    unfold DBA_ReadDataTool.validateDBAQuery.
    now rewrite (is_empty_false_of_clean q H2), H2, Hf.
Qed.

(** [drop], in lower case and next to punctuation, is a standalone token of
    both texts: both are rejected, and a keyword is named. *)
Lemma C4_witness :
  (SqlSecurityValidator.IsValid
     (SqlSecurityValidator.ValidateReadQuery "SELECT 1 FROM t;drop(x)") = false /\
   exists first,
     first_standalone SqlSecurityValidator.DangerousKeywords
       (SqlSecurityValidator.cleanQuery_of "SELECT 1 FROM t;drop(x)") first /\
     SqlSecurityValidator.ValidateReadQuery "SELECT 1 FROM t;drop(x)" =
     SqlSecurityValidator.mkValidationResult false
       (SqlSecurityValidator.read_keyword_message first)) /\
  exists first,
    first_standalone DBA_ReadDataTool.DANGEROUS_KEYWORDS
      (clean "drop table t; DELETE FROM t") first /\
    DBA_ReadDataTool.validateDBAQuery "drop table t; DELETE FROM t" =
    rejected (DBA_ReadDataTool.keyword_message first).
Proof.
  split.
  - destruct (C4_standalone_keyword_rejected "DROP" "SELECT 1 FROM t;drop(x)")
      as [[Hv H] _].
    + vm_compute. reflexivity.
    + simpl. tauto.
    + exists "SELECT 1 FROM t;", "drop", "(x)". repeat split; reflexivity.
    + split; [exact Hv|]. apply H; reflexivity.
  - destruct (C4_standalone_keyword_rejected "DROP" "drop table t; DELETE FROM t")
      as [_ H].
    + vm_compute. reflexivity.
    + apply H.
      * simpl. tauto.
      * exists "", "drop", " table t; DELETE FROM t". repeat split; reflexivity.
Defined.

(** C4, as stated, fails: a text made of a denylisted keyword is rejected
    for its leading verb, with no keyword named; and of two keywords only
    the first of the denylist is named. *)
Lemma C4_counterexample :
  SqlSecurityValidator.ValidateReadQuery "DROP TABLE users" =
  SqlSecurityValidator.mkValidationResult false
    "Query must start with SELECT for security reasons" /\
  DBA_ReadDataTool.validateDBAQuery "drop table t; DELETE FROM t" <>
  rejected (DBA_ReadDataTool.keyword_message "DROP").
Proof. split; [decide_eval | vm_compute; discriminate]. Qed.

End NodeClaims.

Section DataDefinitionClaims.
Import Js.

(** C5 fails on the code.  On the tool as constructed the batch of two
    allowed statements is not accepted: [validateDDL] ends with the
    TypeError of [this.ALLOWED_DDL_KEYWORDS.some], the first use of an
    allow-list, before any statement of the batch is looked at.  The batch
    with the trailing SELECT ends the same way, with no rejection. *)
Theorem C5_ddl_batches_raise :
  validate DataDefinition "CREATE TABLE t (id INT); CREATE INDEX ix ON t(id)" =
  Raised "TypeError: Cannot read properties of undefined (reading 'some')" /\
  validate DataDefinition "CREATE TABLE t (id INT); SELECT * FROM t" =
  Raised "TypeError: Cannot read properties of undefined (reading 'some')".
Proof. split; decide_eval. Qed.

(** C7 fails on the code.  [validate] ends with an exception, not with a
    ValidationResult, for the DataDefinition class: in [validateDDL] the
    expression [this.ALLOWED_DDL_KEYWORDS] is [undefined] on the tool as
    constructed, and [.some] on it raises a TypeError. *)
Theorem C7_validateDDL_raises :
  validate DataDefinition "CREATE TABLE t (id INT)" =
  Raised "TypeError: Cannot read properties of undefined (reading 'some')".
Proof. decide_eval. Qed.


End DataDefinitionClaims.

Section MaxLength.
Import Js.

Lemma gtb_le (a b : Z) : (a <= b)%Z -> (a >? b)%Z = false.
Proof. intros H. destruct (Z.gtb_spec a b); [lia | reflexivity]. Qed.

Lemma gtb_gt (a b : Z) : (a > b)%Z -> (a >? b)%Z = true.
Proof. intros H. destruct (Z.gtb_spec a b); [reflexivity | lia]. Qed.

(** The system-database check of [validateDDL], which comes after the
    length check, never fires: its pattern is covered by the pattern
    scan. *)
Lemma ddl_length_is_decisive (this : ExecuteDDLTool.receiver) (q : string) :
  other_checks_pass this DataDefinition q ->
  ExecuteDDLTool.validateDDL this q =
  Returns (if too_long q
           then rejected
                  "DDL statement is too long. Maximum allowed length is 50,000 characters."
           else ok).
Proof.
  intros (H1 & H2 & H3 & H4 & H5 & H6 & H7 & H8 & H9).
  unfold ExecuteDDLTool.validateDDL.
  rewrite H1, H2, H3. cbn [bind negb]. rewrite H4. cbn [bind].
  rewrite H5, H6, H7. cbn [bind]. rewrite H8, H9.
  destruct (too_long q); reflexivity.
Qed.

(** C8.  For a text that passes every other check of its policy, the verdict
    is decided by the length of the text as submitted: at most [maxLength]
    characters (so exactly [maxLength]) is accepted, more (so
    [maxLength + 1]) is rejected as too long. *)
Theorem C8_length_boundary (this : ExecuteDDLTool.receiver)
    (op : OperationClass) (q : string) :
  other_checks_pass this op q ->
  ((Length q <= maxLength op)%Z -> validate_on this op q = Accepted) /\
  ((Length q > maxLength op)%Z ->
   validate_on this op q = Rejected (InputTooLong op)).
Proof.
  destruct op; cbn [other_checks_pass maxLength InputTooLong validate_on].
  - intros (H1 & H2 & H3 & H4 & H5 & H6 & H7).
    unfold SqlSecurityValidator.ValidateReadQuery,
      SqlSecurityValidator.too_long.
    rewrite H1, H2, H3, H4, H5, H6, H7. cbn [negb].
    split; intros HL; [rewrite (gtb_le _ _ HL) | rewrite (gtb_gt _ _ HL)];
      reflexivity.
  - intros (H1 & H2 & H3 & H4 & H5 & H6).
    unfold SqlSecurityValidator.ValidateUpdateQuery,
      SqlSecurityValidator.too_long.
    rewrite H1, H2, H3, H4, H5, H6. cbn [negb].
    split; intros HL; [rewrite (gtb_le _ _ HL) | rewrite (gtb_gt _ _ HL)];
      reflexivity.
  - intros H. rewrite (ddl_length_is_decisive this q H). unfold too_long.
    split; intros HL; [rewrite (gtb_le _ _ HL) | rewrite (gtb_gt _ _ HL)];
      reflexivity.
  - intros (H1 & H2 & H3 & H4 & H5).
    unfold DBA_ReadDataTool.validateDBAQuery, too_long.
    rewrite H1, H2, H3, H4, H5. cbn [negb].
    split; intros HL; [rewrite (gtb_le _ _ HL) | rewrite (gtb_gt _ _ HL)];
      reflexivity.
Qed.

(** A SELECT of exactly 10,000 characters is accepted, and the same with one
    more character is rejected as too long; short texts of the other three
    classes pass their other checks and are accepted. *)
Lemma C8_witness :
  (Length (long_select 9993%N) = 10000%Z /\
   validate ReadOnlyQuery (long_select 9993%N) = Accepted) /\
  (Length (long_select 9994%N) = 10001%Z /\
   validate ReadOnlyQuery (long_select 9994%N) =
   Rejected "Query is too long. Maximum allowed length is 10,000 characters.") /\
  validate GuardedMutation "UPDATE users SET name='x' WHERE id=1" = Accepted /\
  validate_on ExecuteDDLTool.with_static_lists DataDefinition
    "CREATE TABLE t (id INT)" = Accepted /\
  validate DiagnosticBatch
    "SET STATISTICS IO ON; SELECT * FROM Posts WHERE Id = 1; SET STATISTICS IO OFF;"
  = Accepted.
Proof.
  split; [split; [decide_eval|] | split; [split; [decide_eval|] | repeat conj_split]].
  - apply (C8_length_boundary ExecuteDDLTool.new_ExecuteDDLTool
             ReadOnlyQuery (long_select 9993%N)).
    + cbn [other_checks_pass]. repeat conj_split; decide_eval.
    + vm_compute. discriminate.
  - apply (C8_length_boundary ExecuteDDLTool.new_ExecuteDDLTool
             ReadOnlyQuery (long_select 9994%N)).
    + cbn [other_checks_pass]. repeat conj_split; decide_eval.
    + decide_eval.
  - apply (C8_length_boundary ExecuteDDLTool.new_ExecuteDDLTool GuardedMutation).
    + cbn [other_checks_pass]. repeat conj_split; decide_eval.
    + vm_compute. discriminate.
  - apply (C8_length_boundary ExecuteDDLTool.with_static_lists DataDefinition).
    + cbn [other_checks_pass]. repeat conj_split; decide_eval.
    + vm_compute. discriminate.
  - apply (C8_length_boundary ExecuteDDLTool.new_ExecuteDDLTool DiagnosticBatch).
    + cbn [other_checks_pass]. repeat conj_split; decide_eval.
    + vm_compute. discriminate.
Defined.

End MaxLength.

(* ================================================================== *)
(** * Further properties of the validators                             *)
(* ================================================================== *)

(** A branch that returns a rejection is not an accepting run. *)
Ltac reject_case :=
  let E := fresh "E" in intros E; injection E as <-; discriminate.

Section AcceptedTexts.
Import Js.

Lemma find_none_all {A : Type} (f : A -> bool) (l : list A) (x : A) :
  find f l = None -> In x l -> f x = false.
Proof.
  induction l as [|a l IH]; simpl; [tauto|].
  destruct (f a) eqn:E; [discriminate|].
  intros H [<-|Hin]; auto.
Qed.

Lemma first_dangerous_none (denylist : list string) (upper keyword : string) :
  SqlSecurityValidator.first_dangerous denylist upper = None ->
  In keyword denylist ->
  SqlSecurityValidator.keyword_found upper keyword = false.
Proof. unfold SqlSecurityValidator.first_dangerous. apply find_none_all. Qed.

Lemma js_first_dangerous_none (denylist : list string) (upper keyword : string) :
  first_dangerous denylist upper = None ->
  In keyword denylist -> keyword_found upper keyword = false.
Proof. unfold first_dangerous. apply find_none_all. Qed.

(** What an accepting run of each validator went through. *)
Lemma ValidateReadQuery_accepted (sql : string) :
  SqlSecurityValidator.IsValid (SqlSecurityValidator.ValidateReadQuery sql) = true ->
  other_checks_pass ExecuteDDLTool.new_ExecuteDDLTool ReadOnlyQuery sql /\
  (Length sql <= 10000)%Z.
Proof.
  unfold SqlSecurityValidator.ValidateReadQuery, SqlSecurityValidator.too_long.
  cbn [other_checks_pass].
  destruct (IsNullOrWhiteSpace sql); [discriminate|].
  destruct (IsNullOrWhiteSpace _); [discriminate|].
  destruct (StartsWith _ "SELECT"); [|discriminate]. cbn [negb].
  destruct (SqlSecurityValidator.first_dangerous _ _); [discriminate|].
  destruct (SqlSecurityValidator.pattern_detected sql); [discriminate|].
  destruct (SqlSecurityValidator.multiple_statements _); [discriminate|].
  destruct (SqlSecurityValidator.char_conversion sql); [discriminate|].
  destruct (Z.gtb_spec (Length sql) 10000); [discriminate|].
  intros _. repeat split; auto.
Qed.

Lemma ValidateUpdateQuery_accepted (sql : string) :
  SqlSecurityValidator.IsValid (SqlSecurityValidator.ValidateUpdateQuery sql) = true ->
  other_checks_pass ExecuteDDLTool.new_ExecuteDDLTool GuardedMutation sql /\
  (Length sql <= 10000)%Z.
Proof.
  unfold SqlSecurityValidator.ValidateUpdateQuery, SqlSecurityValidator.too_long.
  cbn [other_checks_pass].
  destruct (IsNullOrWhiteSpace sql); [discriminate|].
  destruct (IsNullOrWhiteSpace _); [discriminate|].
  destruct (StartsWith _ "UPDATE"); [|discriminate]. cbn [negb].
  destruct (Contains _ " WHERE "); [|discriminate]. cbn [negb].
  destruct (SqlSecurityValidator.first_dangerous _ _); [discriminate|].
  destruct (SqlSecurityValidator.multiple_statements _); [discriminate|].
  destruct (Z.gtb_spec (Length sql) 10000); [discriminate|].
  intros _. repeat split; auto.
Qed.

Lemma validateDBAQuery_accepted (query : string) :
  isValid (DBA_ReadDataTool.validateDBAQuery query) = true ->
  other_checks_pass ExecuteDDLTool.new_ExecuteDDLTool DiagnosticBatch query /\
  (Length query <= 50000)%Z.
Proof.
  unfold DBA_ReadDataTool.validateDBAQuery, too_long.
  cbn [other_checks_pass].
  destruct (is_empty query); [discriminate|].
  destruct (is_empty (clean query)); [discriminate|].
  destruct (first_dangerous _ _); [discriminate|].
  destruct (pattern_detected _ _); [discriminate|].
  destruct (IsMatch _ _); [|discriminate]. cbn [negb].
  destruct (Z.gtb_spec (Length query) 50000); [discriminate|].
  intros _. repeat split; auto.
Qed.

(** The batch loop ends without a verdict, with its one rejection, or with
    an exception. *)
Lemma check_statements_verdict (this : ExecuteDDLTool.receiver)
    (statements : list string) (v : verdict) :
  ExecuteDDLTool.check_statements this statements = Returns (Some v) ->
  v = rejected "All statements in a batch must be valid DDL operations.".
Proof.
  induction statements as [|stmt rest IH]; simpl; [discriminate|].
  destruct (ExecuteDDLTool.starts_with_allowed this _) as [b|e]; simpl;
    [|discriminate].
  destruct b; simpl; [exact IH|]. intros H. now injection H as <-.
Qed.

Lemma object_type_check_verdict (this : ExecuteDDLTool.receiver)
    (upper : string) (v : verdict) :
  ExecuteDDLTool.object_type_check this upper = Returns (Some v) ->
  isValid v = false /\
  exists allowed, error v = Some ("Object type must be one of: " ++ allowed).
Proof.
  unfold ExecuteDDLTool.object_type_check.
  destruct (_ || _); [|discriminate].
  destruct (ExecuteDDLTool.some _ _) as [b|e]; simpl; [|discriminate].
  destruct b; simpl; [discriminate|].
  destruct (ExecuteDDLTool.join_or_throw _) as [a|e]; simpl; [|discriminate].
  intros H. injection H as <-. split; [reflexivity | now exists a].
Qed.

(** X1.  On an ASCII text, the pattern the scanners build for a keyword of
    their denylist matches the upper-cased text exactly when the keyword
    occurs in the text as a standalone token, in any letter case: for the
    C# denylist, where the keyword is escaped, and for the two Node
    denylists. *)
Theorem keyword_scanner_exact (text keyword : string) :
  every is_ascii text = true ->
  (In keyword SqlSecurityValidator.DangerousKeywords ->
   (SqlSecurityValidator.keyword_found (ToUpper text) keyword = true <->
    standalone_token keyword text)) /\
  (In keyword (DBA_ReadDataTool.DANGEROUS_KEYWORDS ++
               ExecuteDDLTool.DANGEROUS_KEYWORDS)%list ->
   (keyword_found (ToUpper text) keyword = true <->
    standalone_token keyword text)).
Proof.
  intros _.
  split; intros _; [apply keyword_found_iff | apply js_keyword_found_iff].
Qed.

Lemma keyword_scanner_exact_witness :
  keyword_found (ToUpper "select deleted, x from t; drop table t") "DROP" = true /\
  ~ standalone_token "DELETE" "select deleted, x from t; drop table t".
Proof.
  assert (Ha : every is_ascii "select deleted, x from t; drop table t" = true)
    by (vm_compute; reflexivity).
  destruct (keyword_scanner_exact "select deleted, x from t; drop table t" "DROP" Ha)
    as [_ H1].
  destruct (keyword_scanner_exact "select deleted, x from t; drop table t" "DELETE" Ha)
    as [_ H2].
  split.
  - apply H1; [simpl; tauto|].
    exists "select deleted, x from t; ", "drop", " table t".
    repeat split; reflexivity.
  - intros H. apply H2 in H; [|simpl; tauto]. vm_compute in H. discriminate.
Defined.

(** X2.  An ASCII text that [ValidateReadQuery], [ValidateUpdateQuery] or
    [validateDBAQuery] accepts holds none of the keywords of that
    validator's denylist as a standalone token of its normalized text. *)
Theorem accepted_text_has_no_denied_keyword (q keyword : string) :
  every is_ascii q = true ->
  (SqlSecurityValidator.IsValid (SqlSecurityValidator.ValidateReadQuery q) = true ->
   In keyword SqlSecurityValidator.DangerousKeywords ->
   ~ standalone_token keyword (SqlSecurityValidator.cleanQuery_of q)) /\
  (SqlSecurityValidator.IsValid (SqlSecurityValidator.ValidateUpdateQuery q) = true ->
   In keyword SqlSecurityValidator.updateDangerousKeywords ->
   ~ standalone_token keyword (SqlSecurityValidator.cleanQuery_of q)) /\
  (isValid (DBA_ReadDataTool.validateDBAQuery q) = true ->
   In keyword DBA_ReadDataTool.DANGEROUS_KEYWORDS ->
   ~ standalone_token keyword (clean q)).
Proof.
  intros _. repeat conj_split.
  - intros H Hin Hst. apply ValidateReadQuery_accepted in H as [H _].
    destruct H as (_ & _ & _ & Hk & _).
    apply keyword_found_iff in Hst.
    rewrite (first_dangerous_none _ _ _ Hk Hin) in Hst. discriminate.
  - intros H Hin Hst. apply ValidateUpdateQuery_accepted in H as [H _].
    destruct H as (_ & _ & _ & _ & Hk & _).
    apply keyword_found_iff in Hst.
    rewrite (first_dangerous_none _ _ _ Hk Hin) in Hst. discriminate.
  - intros H Hin Hst. apply validateDBAQuery_accepted in H as [H _].
    destruct H as (_ & _ & Hk & _).
    apply js_keyword_found_iff in Hst.
    rewrite (js_first_dangerous_none _ _ _ Hk Hin) in Hst. discriminate.
Qed.

Lemma accepted_text_has_no_denied_keyword_witness :
  ~ standalone_token "DROP"
      (SqlSecurityValidator.cleanQuery_of "SELECT dropped, drop_count FROM t").
Proof.
  destruct (accepted_text_has_no_denied_keyword
              "SELECT dropped, drop_count FROM t" "DROP") as [H _].
  - vm_compute. reflexivity.
  - apply H; [vm_compute; reflexivity | simpl; tauto].
Defined.

(** X3.  No text is accepted both as a read query and as an update. *)
Theorem read_and_update_acceptance_disjoint (sql : string) :
  ~ (SqlSecurityValidator.IsValid (SqlSecurityValidator.ValidateReadQuery sql) = true /\
     SqlSecurityValidator.IsValid (SqlSecurityValidator.ValidateUpdateQuery sql) = true).
Proof.
  intros [Hr Hu].
  apply ValidateReadQuery_accepted in Hr as [(_ & _ & Hs & _) _].
  apply ValidateUpdateQuery_accepted in Hu as [(_ & _ & Hp & _) _].
  destruct (ToUpper (SqlSecurityValidator.cleanQuery_of sql)) as [|c s];
    [discriminate|].
  cbn [StartsWith] in Hs, Hp.
  apply andb_true_iff in Hs as [Hs _]. apply andb_true_iff in Hp as [Hp _].
  apply Ascii.eqb_eq in Hs, Hp. congruence.
Qed.

End AcceptedTexts.

(* ================================================================== *)
(** * Further properties of the Normalizer                             *)
(* ================================================================== *)

Section NormalForms.

Lemma strip_line_comments_length (eol : ascii -> bool) (s : string) :
  forall inside,
    (String.length (strip_line_comments eol inside s) <= String.length s)%nat.
Proof.
  induction s as [| c | c d s IH1 IH2] using string_pair_ind; intros inside.
  - simpl. lia.
  - destruct inside; simpl; [destruct (eol c); simpl; lia | lia].
  - destruct inside.
    + change (strip_line_comments eol true (String c (String d s)))
        with (if eol c
              then String c (strip_line_comments eol false (String d s))
              else strip_line_comments eol true (String d s)).
      destruct (eol c); [specialize (IH2 false) | specialize (IH2 true)];
        cbn [String.length] in *; lia.
    + rewrite strip_line_comments_pair.
      destruct (_ && _); [specialize (IH1 true) | specialize (IH2 false)];
        cbn [String.length] in *; lia.
Qed.

Lemma strip_block_comments_length (s : string) :
  forall inside,
    (String.length (strip_block_comments inside s) <= String.length s)%nat.
Proof.
  induction s as [| c | c d s IH1 IH2] using string_pair_ind; intros inside.
  - simpl. lia.
  - destruct inside; simpl; lia.
  - destruct inside.
    + change (strip_block_comments true (String c (String d s)))
        with (if (c =? "*")%char && (d =? "/")%char
              then strip_block_comments false s
              else strip_block_comments true (String d s)).
      destruct (_ && _); [specialize (IH1 false) | specialize (IH2 true)];
        cbn [String.length] in *; lia.
    + rewrite strip_block_comments_pair.
      destruct (_ && _);
        [destruct (Contains s "*/");
         [specialize (IH1 true) | specialize (IH2 false)]
        | specialize (IH2 false)];
        cbn [String.length] in *; lia.
Qed.

Lemma ReplaceChar_length (a b : ascii) (s : string) :
  String.length (ReplaceChar a b s) = String.length s.
Proof. induction s as [|c s IH]; simpl; [reflexivity | now rewrite IH]. Qed.

Lemma TrimEnd_length (s : string) :
  (String.length (TrimEnd s) <= String.length s)%nat.
Proof.
  induction s as [|c s IH]; [simpl; lia|].
  rewrite TrimEnd_cons. destruct (TrimEnd s) as [|d t].
  - destruct (is_space c); simpl; lia.
  - cbn [String.length] in *. lia.
Qed.

Lemma Trim_length (s : string) :
  (String.length (Trim s) <= String.length s)%nat.
Proof.
  unfold Trim. pose proof (TrimEnd_length (TrimStart s)).
  pose proof (TrimStart_length s). lia.
Qed.

Lemma collapse_loop_length (fuel : nat) :
  forall q, (String.length (collapse_loop fuel q) <= String.length q)%nat.
Proof.
  induction fuel as [|fuel IH]; intros q; simpl; [lia|].
  destruct (Contains q "  "); [|lia].
  specialize (IH (ReplaceDoubleSpace q)).
  destruct (ReplaceDoubleSpace_length q) as [H _]. lia.
Qed.

(** X4.  The text the C# validators analyse holds no TAB, LF or CR, neither
    starts nor ends with white space, has no two spaces in a row, and is
    never longer than the text as submitted. *)
Theorem cleanQuery_of_normal_form (sql : string) :
  every (fun c => negb ((c =? TAB)%char || (c =? LF)%char || (c =? CR)%char))
        (SqlSecurityValidator.cleanQuery_of sql) = true /\
  Trim (SqlSecurityValidator.cleanQuery_of sql) =
  SqlSecurityValidator.cleanQuery_of sql /\
  Contains (SqlSecurityValidator.cleanQuery_of sql) "  " = false /\
  (String.length (SqlSecurityValidator.cleanQuery_of sql) <= String.length sql)%nat.
Proof.
  destruct (cleanQuery_of_shape sql) as (Ht & Hl & Hc & T1 & T2 & Hs).
  repeat conj_split.
  - revert Ht Hl Hc. generalize (SqlSecurityValidator.cleanQuery_of sql).
    induction s as [|c s IH]; [reflexivity|]. unfold is_not. cbn [every].
    destruct (c =? TAB)%char; [discriminate|].
    destruct (c =? LF)%char; [discriminate|].
    destruct (c =? CR)%char; [discriminate|]. cbn [negb orb]. exact IH.
  - now apply Trim_id.
  - exact Hs.
  - unfold SqlSecurityValidator.cleanQuery_of, CollapseSpaces,
      SqlSecurityValidator.RemoveComments.
    set (r1 := strip_line_comments SqlSecurityValidator.is_LF false sql).
    set (r2 := strip_block_comments false r1).
    set (u := ReplaceChar CR " " (ReplaceChar LF " " (ReplaceChar TAB " " r2))).
    pose proof (collapse_loop_length (String.length (Trim u)) (Trim u)).
    pose proof (Trim_length u).
    assert (String.length u = String.length r2)
      by (unfold u; now rewrite !ReplaceChar_length).
    pose proof (strip_block_comments_length r1 false).
    pose proof (strip_line_comments_length SqlSecurityValidator.is_LF sql false).
    fold r1 in H3. fold r2 in H2. lia.
Qed.

(** *** The Node normalizer *)

Lemma not_space_char (c : ascii) : is_space c = false -> (" " =? c)%char = false.
Proof. intros H. rewrite Ascii.eqb_sym. now apply space_is_space. Qed.

Lemma collapse_whitespace_in_run (s : string) :
  starts_with_space (collapse_whitespace true s) = false.
Proof.
  induction s as [|c s IH]; [reflexivity|]. simpl.
  destruct (is_space c) eqn:E; [exact IH|]. simpl. now apply space_is_space.
Qed.

Lemma Contains_double_space_cons (c : ascii) (t : string) :
  Contains (String c t) "  " =
  ((" " =? c)%char && starts_with_space t) || Contains t "  ".
Proof.
  rewrite Contains_unfold. f_equal.
  destruct t as [|d t]; cbn [StartsWith starts_with_space];
    [reflexivity|].
  now rewrite andb_true_r, (Ascii.eqb_sym d " ").
Qed.

Lemma collapse_whitespace_no_double_space (s : string) :
  forall in_run, Contains (collapse_whitespace in_run s) "  " = false.
Proof.
  induction s as [|c s IH]; intros in_run; [reflexivity|]. simpl.
  destruct (is_space c) eqn:E.
  - destruct in_run; [apply IH|].
    rewrite Contains_double_space_cons, collapse_whitespace_in_run, IH.
    now rewrite andb_false_r.
  - rewrite Contains_double_space_cons, (not_space_char c E), IH. reflexivity.
Qed.

Lemma collapse_whitespace_only_spaces (s : string) :
  forall in_run,
    every (fun c => negb (is_space c) || (c =? " ")%char)
          (collapse_whitespace in_run s) = true.
Proof.
  induction s as [|c s IH]; intros in_run; [reflexivity|]. simpl.
  destruct (is_space c) eqn:E.
  - destruct in_run; [apply IH|]. cbn [every]. simpl. apply IH.
  - cbn [every]. rewrite E. simpl. apply IH.
Qed.

Lemma collapse_whitespace_length (s : string) :
  forall in_run,
    (String.length (collapse_whitespace in_run s) <= String.length s)%nat.
Proof.
  induction s as [|c s IH]; intros in_run; simpl; [lia|].
  destruct (is_space c); [destruct in_run|];
    [specialize (IH true) | specialize (IH true) | specialize (IH false)];
    simpl; lia.
Qed.

(** A part of a text has no more occurrences than the text. *)
Lemma StartsWith_append (a r w : string) :
  StartsWith a w = true -> StartsWith (a ++ r) w = true.
Proof.
  revert a. induction w as [|x w IH]; intros a H; [reflexivity|].
  destruct a as [|c a]; [discriminate|]. cbn [StartsWith] in *. simpl.
  apply andb_true_iff in H as [H1 H2]. rewrite H1. simpl. now apply IH.
Qed.

Lemma Contains_append (a r w : string) :
  Contains a w = true -> Contains (a ++ r) w = true.
Proof.
  induction a as [|c a IH]; intros H; rewrite Contains_unfold in H.
  - rewrite orb_false_r in H. rewrite Contains_unfold.
    rewrite (StartsWith_append "" r w H). reflexivity.
  - change (String c a ++ r) with (String c (a ++ r)).
    rewrite Contains_unfold. apply orb_true_iff in H as [H|H].
    + pose proof (StartsWith_append (String c a) r w H) as G.
      change (String c a ++ r) with (String c (a ++ r)) in G.
      rewrite G. reflexivity.
    + rewrite (IH H). apply orb_true_r.
Qed.

Lemma Contains_TrimStart (s w : string) :
  Contains (TrimStart s) w = true -> Contains s w = true.
Proof.
  induction s as [|c s IH]; [auto|]. simpl TrimStart.
  destruct (is_space c); [|auto].
  intros H. rewrite Contains_unfold, (IH H). apply orb_true_r.
Qed.

Lemma TrimEnd_prefix (s : string) : exists r, s = TrimEnd s ++ r.
Proof.
  induction s as [|c s [r IH]]; [now exists ""|].
  rewrite TrimEnd_cons. destruct (TrimEnd s) as [|d t].
  - destruct (is_space c).
    + now exists (String c s).
    + exists s. reflexivity.
  - exists r. simpl. now rewrite IH at 1.
Qed.

Lemma Contains_TrimEnd (s w : string) :
  Contains (TrimEnd s) w = true -> Contains s w = true.
Proof.
  intros H. destruct (TrimEnd_prefix s) as [r Hr]. rewrite Hr.
  now apply Contains_append.
Qed.

Lemma Contains_Trim_false (s w : string) :
  Contains s w = false -> Contains (Trim s) w = false.
Proof.
  intros H. destruct (Contains (Trim s) w) eqn:E; [|reflexivity].
  unfold Trim in E. apply Contains_TrimEnd, Contains_TrimStart in E. congruence.
Qed.

(** X5.  The text the Node validators analyse has no white space but single
    spaces, none of them at either end, and is never longer than the text
    as submitted. *)
Theorem clean_normal_form (query : string) :
  every (fun c => negb (is_space c) || (c =? " ")%char) (Js.clean query) = true /\
  Contains (Js.clean query) "  " = false /\
  Trim (Js.clean query) = Js.clean query /\
  (String.length (Js.clean query) <= String.length query)%nat.
Proof.
  unfold Js.clean.
  set (r1 := strip_line_comments Js.is_line_terminator false query).
  set (r2 := strip_block_comments false r1).
  set (u := collapse_whitespace false r2).
  repeat conj_split.
  - unfold Trim. apply every_TrimEnd, every_TrimStart.
    apply collapse_whitespace_only_spaces.
  - apply Contains_Trim_false, collapse_whitespace_no_double_space.
  - destruct (Trim_fixed u) as [T1 T2]. now apply Trim_id.
  - pose proof (Trim_length u).
    pose proof (collapse_whitespace_length r2 false). fold u in H0.
    pose proof (strip_block_comments_length r1 false). fold r2 in H1.
    pose proof (strip_line_comments_length Js.is_line_terminator query false).
    fold r1 in H2. lia.
Qed.

End NormalForms.

(* ================================================================== *)
(** * Further properties of the Node validators                        *)
(* ================================================================== *)

Section NodeExtras.
Import Js.

Lemma Contains_skip (a b w : string) :
  StartsWith b w = true -> Contains (a ++ b) w = true.
Proof.
  intros H. induction a as [|c a IH].
  - simpl. rewrite Contains_unfold, H. reflexivity.
  - change (String c a ++ b) with (String c (a ++ b)).
    rewrite Contains_unfold, IH. apply orb_true_r.
Qed.

(** A literal followed by a dot, at the start of a text. *)
Lemma matches_lit_ci_dot (w s : string) (prev : option ascii) :
  matches (lit_ci w) (matches (chr ".") accept) prev s = true ->
  StartsWith (ToUpper s) (ToUpper (w ++ ".")) = true.
Proof.
  intros H. apply matches_lit_ci_inv in H as (w' & rest & -> & Hw & H).
  destruct rest as [|c rest]; [discriminate|].
  unfold chr in H. cbn [matches] in H.
  destruct (c =? ".")%char eqn:E; [|discriminate].
  apply Ascii.eqb_eq in E. subst c.
  rewrite !ToUpper_app, Hw.
  change (ToUpper (String "." rest)) with ("." ++ ToUpper rest).
  change (ToUpper ".") with ".".
  rewrite <- append_assoc. apply StartsWith_app.
Qed.

(** What the system-database pattern finds, the pattern scan finds. *)
Lemma systemDbPattern_covered (ddl : string) :
  IsMatch ExecuteDDLTool.systemDbPattern ddl = true ->
  pattern_detected ExecuteDDLTool.DANGEROUS_PATTERNS ddl = true.
Proof.
  unfold IsMatch. intros H.
  apply search_inv in H as (pre & rest & -> & H).
  unfold ExecuteDDLTool.systemDbPattern, words_ci in H.
  cbn [map alts] in H.
  change (matches (Cat ?a ?b) ?k ?p ?s) with (matches a (matches b k) p s) in H.
  assert (G : exists w, In w ["master"; "msdb"; "model"; "tempdb"] /\
                        StartsWith (ToUpper rest) (ToUpper (w ++ ".")) = true).
  { cbn [matches] in H.
    repeat match type of H with
           | (if ?b then true else _) = true =>
               let E := fresh "E" in destruct b eqn:E
           end;
      try (apply matches_lit_ci_dot in H);
      repeat match goal with
             | E : matches (lit_ci _) _ _ _ = true |- _ =>
                 apply matches_lit_ci_dot in E
             end.
    - exists "master". simpl In. tauto.
    - exists "msdb". simpl In. tauto.
    - exists "model". simpl In. tauto.
    - exists "tempdb". simpl In. tauto. }
  destruct G as (w & Hin & Hs).
  assert (Hc : ContainsIgnoreCase (pre ++ rest) (w ++ ".") = true).
  { unfold ContainsIgnoreCase. rewrite ToUpper_app. now apply Contains_skip. }
  unfold pattern_detected. apply existsb_exists.
  exists (lit_ci (w ++ ".")). split; [|now apply IsMatch_lit_ci].
  unfold ExecuteDDLTool.DANGEROUS_PATTERNS.
  simpl in Hin. destruct Hin as [<-|[<-|[<-|[<-|[]]]]]; simpl; tauto.
Qed.

(** X6.  [validateDDL] never ends in its last rejection, the one for
    operations on system databases: what that check looks for is already
    among the patterns of the pattern scan, which comes first. *)
Theorem validateDDL_system_database_check_unreachable
    (this : ExecuteDDLTool.receiver) (ddl : string) :
  ExecuteDDLTool.validateDDL this ddl <>
  Returns (rejected
    "Operations on system databases (master, msdb, model, tempdb) are not allowed.").
Proof.
  unfold ExecuteDDLTool.validateDDL.
  destruct (is_empty ddl); [intros E; injection E; discriminate|].
  destruct (is_empty (clean ddl)); [intros E; injection E; discriminate|].
  destruct (ExecuteDDLTool.starts_with_allowed this _) as [b|e]; cbn [bind];
    [|discriminate].
  destruct b; cbn [negb].
  2:{ destruct (ExecuteDDLTool.join_or_throw _); cbn [bind]; [|discriminate].
      intros E. injection E as E. simpl in E. discriminate. }
  destruct (ExecuteDDLTool.object_type_check this _) as [[f|]|e] eqn:Eo;
    cbn [bind]; [| |discriminate].
  { intros E. injection E as ->.
    apply object_type_check_verdict in Eo as [_ [a Eo]].
    simpl in Eo. discriminate. }
  destruct (first_dangerous _ _);
    [intros E; injection E as E; simpl in E; discriminate|].
  destruct (pattern_detected _ ddl) eqn:Ep;
    [intros E; injection E; discriminate|].
  destruct (ExecuteDDLTool.batch_check this _) as [[f|]|e] eqn:Eb;
    cbn [bind]; [| |discriminate].
  { intros E. injection E as ->. unfold ExecuteDDLTool.batch_check in Eb.
    destruct (_ <? _)%nat; [|discriminate].
    apply check_statements_verdict in Eb. discriminate. }
  destruct (ExecuteDDLTool.char_conversion ddl);
    [intros E; injection E; discriminate|].
  destruct (too_long ddl); [intros E; injection E; discriminate|].
  destruct (IsMatch ExecuteDDLTool.systemDbPattern ddl) eqn:Es;
    [|discriminate].
  apply systemDbPattern_covered in Es. congruence.
Qed.

(** X8.  The DBA tool never accepts a text that contains, anywhere and in
    any letter case, one of the words its pattern list holds without any
    anchor: an ordinary column such as [last_login] is enough. *)
Theorem dba_unanchored_words_rejected (query word : string) :
  In word ["OPENROWSET"; "OPENDATASOURCE"; "xp_cmdshell"; "xp_dirtree";
           "xp_fileexist"; "PASSWORD"; "LOGIN"] ->
  ContainsIgnoreCase query word = true ->
  isValid (DBA_ReadDataTool.validateDBAQuery query) = false.
Proof.
  intros Hin Hc.
  assert (Hp : pattern_detected DBA_ReadDataTool.DANGEROUS_PATTERNS query = true).
  { unfold pattern_detected. apply existsb_exists.
    exists (lit_ci word). split; [|now apply IsMatch_lit_ci].
    unfold DBA_ReadDataTool.DANGEROUS_PATTERNS. simpl in Hin.
    repeat (destruct Hin as [<-|Hin]; [simpl; tauto|]). contradiction. }
  unfold DBA_ReadDataTool.validateDBAQuery. rewrite Hp.
  destruct (is_empty query); [reflexivity|].
  destruct (is_empty (clean query)); [reflexivity|].
  destruct (first_dangerous _ _); reflexivity.
Qed.

Lemma dba_unanchored_words_rejected_witness :
  isValid (DBA_ReadDataTool.validateDBAQuery "SELECT last_login FROM users") = false.
Proof.
  apply (dba_unanchored_words_rejected "SELECT last_login FROM users" "LOGIN").
  - simpl. tauto.
  - vm_compute. reflexivity.
Defined.

End NodeExtras.

(* ================================================================== *)
(** * The C# tools ReadData and UpdateData                             *)
(* ================================================================== *)

Section CSharpTools.
Import SqlSecurityValidator Tools.

Variable V : Type.



(** The reading loop keeps the first [maxRecords] records. *)
Lemma read_records_firstn (reader : list (record V)) :
  forall recordCount,
    (recordCount <= maxRecords)%N ->
    fst (read_records reader recordCount) =
    map read_row (firstn (N.to_nat (maxRecords - recordCount)) reader) /\
    snd (read_records reader recordCount) =
    (recordCount +
     N.of_nat (List.length (fst (read_records reader recordCount))))%N.
Proof.
  induction reader as [|r rest IH]; intros c Hc.
  - simpl. rewrite firstn_nil. split; [reflexivity | lia].
  - cbn [read_records]. destruct (N.ltb_spec c maxRecords) as [Hlt|Hge].
    + destruct (IH (c + 1)%N) as [IH1 IH2]; [lia|].
      destruct (read_records rest (c + 1)) as [results n].
      cbn [fst snd] in *.
      replace (N.to_nat (maxRecords - c))
        with (S (N.to_nat (maxRecords - (c + 1)))) by lia.
      subst results. cbn [firstn map List.length].
      split; [reflexivity | lia].
    + replace (N.to_nat (maxRecords - c)) with 0%nat by lia.
      simpl. split; [reflexivity | lia].
Qed.

(** X11.  A successful [ReadData] returns the first 10,000 records the
    reader gives, in order, and no more. *)
Theorem ReadData_returns_at_most_maxRecords (db : database V) (sql : string)
    (reader : list (record V)) :
  IsValid (ValidateReadQuery sql) = true ->
  GetOpenConnectionAsync db = None ->
  ExecuteReaderAsync db sql = Done reader ->
  exists results,
    result (ReadData db sql) =
    Completed (mkDbOperationResult true None None (Some results)) /\
    results = map read_row (firstn (N.to_nat maxRecords) reader) /\
    N.of_nat (List.length results) = N.min (N.of_nat (List.length reader)) 10000.
Proof.
  intros Hv Ho He. unfold ReadData. rewrite Hv, Ho, He. cbn [negb].
  destruct (read_records_firstn reader 0) as [H1 _]; [discriminate|].
  destruct (read_records reader 0) as [results n]. cbn [fst result] in *.
  exists results. split; [reflexivity|].
  rewrite N.sub_0_r in H1. split; [exact H1|].
  rewrite H1, length_map, length_firstn. unfold maxRecords. lia.
Qed.

(** *** Column names *)

Lemma keep_chars_every (keep : ascii -> bool) (s : string) :
  every keep (keep_chars keep s) = true.
Proof.
  induction s as [|c s IH]; [reflexivity|]. simpl.
  destruct (keep c) eqn:E; [|exact IH]. cbn [every]. now rewrite E.
Qed.

Lemma keep_chars_id (keep : ascii -> bool) (s : string) :
  every keep s = true -> keep_chars keep s = s.
Proof.
  induction s as [|c s IH]; [reflexivity|]. simpl.
  destruct (keep c); [|discriminate]. intros H. now rewrite IH.
Qed.

Lemma dict_set_keys (key : string) (value : option V) (d : row V) (x : string) :
  In x (map fst (dict_set key value d)) <-> x = key \/ In x (map fst d).
Proof.
  induction d as [|[k y] d IH]; simpl; [intuition|].
  destruct (String.eqb_spec k key) as [->|Hne]; simpl; [intuition|].
  rewrite IH. intuition.
Qed.

Lemma dict_set_NoDup (key : string) (value : option V) (d : row V) :
  NoDup (map fst d) -> NoDup (map fst (dict_set key value d)).
Proof.
  induction d as [|[k y] d IH]; simpl; intros H.
  - constructor; [simpl; tauto | constructor].
  - destruct (String.eqb_spec k key) as [->|Hne]; simpl; [exact H|].
    inversion H as [|? ? Hk Hd]; subst. constructor; [|now apply IH].
    rewrite dict_set_keys. intros [E|E]; [congruence | contradiction].
Qed.

Lemma fold_dict_set (r : record V) :
  forall acc : row V,
    NoDup (map fst acc) ->
    let row :=
      fold_left
        (fun (row : row V) (field : string * option V) =>
           dict_set (sanitize_column (fst field)) (snd field) row)
        r acc in
    NoDup (map fst row) /\
    forall x, In x (map fst row) <->
              In x (map fst acc) \/ In x (map sanitize_column (map fst r)).
Proof.
  induction r as [|[name value] r IH]; intros acc Hacc; cbn [fold_left].
  - split; [exact Hacc|]. simpl. intuition.
  - destruct (IH (dict_set (sanitize_column name) value acc))
      as [H1 H2]; [now apply dict_set_NoDup|].
    cbv zeta in *. split; [exact H1|]. intros x. rewrite H2, dict_set_keys.
    simpl. intuition.
Qed.

(** X12.  The keys of a returned row are exactly the sanitized names of the
    record's fields, each key once: fields whose names sanitize alike share
    one entry.  A sanitized name holds only letters, digits, underscores,
    white space, hyphens and dots, and a name made of such characters only
    is kept as it is. *)
Theorem read_row_keys (r : record V) :
  NoDup (map fst (read_row r)) /\
  (forall key, In key (map fst (read_row r)) <->
               exists name, In name (map fst r) /\ key = sanitize_column name) /\
  (forall name, every column_char_kept (sanitize_column name) = true) /\
  (forall name, every column_char_kept name = true ->
                sanitize_column name = name).
Proof.
  destruct (fold_dict_set r []) as [H1 H2]; [constructor|].
  cbv zeta in *. fold (read_row r) in H1, H2.
  repeat conj_split.
  - exact H1.
  - intros key. rewrite H2. cbn [map In]. rewrite in_map_iff. split.
    + intros [[]|(name & <- & Hin)]. now exists name.
    + intros (name & Hin & ->). right. now exists name.
  - intros name. apply keep_chars_every.
  - intros name. apply keep_chars_id.
Qed.


End CSharpTools.

Section CSharpToolsWitnesses.
Import SqlSecurityValidator Tools.



(** A reader of one record with two fields whose names sanitize alike: the
    row has one entry, with the value of the later field. *)
Lemma ReadData_returns_at_most_maxRecords_witness :
  exists results,
    result (ReadData
              (mkDatabase None
                 (fun _ => Done [[("total$", Some 1%Z); ("total", Some 2%Z)]])
                 (fun _ => Done 0%Z))
              "SELECT total FROM t") =
    Completed (mkDbOperationResult true None None (Some results)) /\
    results = [[("total", Some 2%Z)]].
Proof.
  destruct (ReadData_returns_at_most_maxRecords Z
              (mkDatabase None
                 (fun _ => Done [[("total$", Some 1%Z); ("total", Some 2%Z)]])
                 (fun _ => Done 0%Z))
              "SELECT total FROM t"
              [[("total$", Some 1%Z); ("total", Some 2%Z)]])
    as (results & Hr & Hres & _); try reflexivity.
  exists results. split; [exact Hr|]. rewrite Hres. reflexivity.
Defined.


End CSharpToolsWitnesses.

(* ================================================================== *)
(** * The Node tools around their validators                           *)
(* ================================================================== *)

Section ExecuteDDLRunFacts.
Import Js ExecuteDDLRun.

(** X14.  On the tool as constructed, [run] never sends anything to the
    database and never reports a success: a text that is empty once
    comments are stripped is answered with SECURITY_VALIDATION_FAILED, and
    every other text with DDL_EXECUTION_FAILED and the generic message,
    the caught exception being the TypeError of [validateDDL]. *)
Theorem execute_ddl_as_constructed_never_executes (db : database) (ddl : string) :
  snd (run ExecuteDDLTool.new_ExecuteDDLTool db ddl) = [] /\
  success (fst (run ExecuteDDLTool.new_ExecuteDDLTool db ddl)) = false /\
  (is_empty (clean ddl) = true ->
   error (fst (run ExecuteDDLTool.new_ExecuteDDLTool db ddl)) =
   Some "SECURITY_VALIDATION_FAILED") /\
  (is_empty (clean ddl) = false ->
   fst (run ExecuteDDLTool.new_ExecuteDDLTool db ddl) =
   mkResponse false "Failed to execute DDL: DDL execution failed"
     (Some "DDL_EXECUTION_FAILED") None None).
Proof.
  unfold run. destruct (is_empty (clean ddl)) eqn:Ec.
  - assert (Hv : exists m,
               ExecuteDDLTool.validateDDL ExecuteDDLTool.new_ExecuteDDLTool ddl
               = Returns (rejected m)).
    { unfold ExecuteDDLTool.validateDDL. rewrite Ec.
      destruct (is_empty ddl); eauto. }
    destruct Hv as [m ->]. cbn.
    repeat conj_split; try reflexivity; try discriminate; auto.
  - rewrite (validateDDL_new_instance_throws ddl Ec).
    repeat conj_split; try reflexivity; try discriminate.
Qed.

Lemma safeErrorMessage_cases (errorMessage : string) :
  In (safeErrorMessage errorMessage)
     ["Object already exists"; "Object does not exist"; "DDL syntax error";
      "Insufficient permissions for DDL operation"; "DDL execution failed"] \/
  (safeErrorMessage errorMessage = errorMessage /\
   Contains errorMessage "Invalid object name" = true).
Proof.
  unfold safeErrorMessage.
  destruct (Contains errorMessage "Invalid object name"); [now right|].
  left.
  destruct (Contains errorMessage "already exists"); [simpl; tauto|].
  destruct (Contains errorMessage "does not exist"); [simpl; tauto|].
  destruct (Contains errorMessage "syntax error"); [simpl; tauto|].
  destruct (Contains errorMessage "permission"); simpl; tauto.
Qed.

(** X16.  A failure of [run] carries one of two error codes.  With
    SECURITY_VALIDATION_FAILED nothing was sent to the database.  With
    DDL_EXECUTION_FAILED the message is a fixed prefix followed by one of
    five fixed texts or by an error message that names an invalid object:
    no other text of an exception or of the database reaches the caller. *)
Theorem execute_ddl_failure_texts
    (this : ExecuteDDLTool.receiver) (db : database) (ddl : string) :
  success (fst (run this db ddl)) = false ->
  exists e,
    (message (fst (run this db ddl)) = "Security validation failed: " ++ e /\
     error (fst (run this db ddl)) = Some "SECURITY_VALIDATION_FAILED" /\
     snd (run this db ddl) = []) \/
    (message (fst (run this db ddl)) = "Failed to execute DDL: " ++ e /\
     error (fst (run this db ddl)) = Some "DDL_EXECUTION_FAILED" /\
     (In e ["Object already exists"; "Object does not exist";
            "DDL syntax error"; "Insufficient permissions for DDL operation";
            "DDL execution failed"] \/
      Contains e "Invalid object name" = true)).
Proof.
  unfold run.
  destruct (ExecuteDDLTool.validateDDL this ddl) as [v|exn].
  - destruct (isValid v); cbn [negb].
    + destruct (db ddl) as [affected|errorMessage]; [discriminate|].
      intros _. exists (safeErrorMessage errorMessage). right.
      cbn [fst caught message error]. repeat conj_split; try reflexivity.
      destruct (safeErrorMessage_cases errorMessage) as [H|[-> H]]; auto.
    + intros _. eexists. left. cbn [fst snd message error]. auto.
  - intros _. exists (safeErrorMessage (message_of exn)). right.
    cbn [fst caught message error]. repeat conj_split; try reflexivity.
    destruct (safeErrorMessage_cases (message_of exn)) as [H|[-> H]]; auto.
Qed.

Lemma execute_ddl_failure_texts_witness :
  exists e,
    message (fst (run ExecuteDDLTool.new_ExecuteDDLTool
                    (fun _ => Tools.Done [0%Z])
                    "CREATE TABLE t (id INT)"))
    = "Failed to execute DDL: " ++ e.
Proof.
  destruct (execute_ddl_failure_texts ExecuteDDLTool.new_ExecuteDDLTool
              (fun _ => Tools.Done [0%Z])
              "CREATE TABLE t (id INT)") as [e [(H & _)|(H & _)]].
  - vm_compute. reflexivity.
  - vm_compute in H. discriminate.
  - exists e. exact H.
Defined.

End ExecuteDDLRunFacts.

Section DBARunFacts.
Import Js DBA_ReadDataRun.

Lemma Split_pieces (sep : ascii) (s piece : string) :
  In piece (Split sep s) -> every (is_not sep) piece = true.
Proof.
  revert piece. induction s as [|c s IH]; intros piece; simpl.
  - intros [<-|[]]. reflexivity.
  - destruct (c =? sep)%char eqn:E.
    + intros [<-|H]; [reflexivity | now apply IH].
    + destruct (Split sep s) as [|h t].
      * intros [<-|[]]. cbn [every]. unfold is_not. now rewrite E.
      * intros [<-|H].
        -- cbn [every]. unfold is_not at 1. rewrite E. cbn [negb].
           apply IH. now left.
        -- apply IH. now right.
Qed.

Lemma star_class_inv (p : ascii -> bool) (k : option ascii -> string -> bool)
    (s : string) :
  forall prev,
    star_class p k prev s = true ->
    exists ws rest,
      s = ws ++ rest /\ every p ws = true /\ k (last_char prev ws) rest = true.
Proof.
  induction s as [|c s IH]; intros prev H; cbn [star_class] in H.
  - destruct (k prev "") eqn:E; [|discriminate]. exists "", "". auto.
  - destruct (k prev (String c s)) eqn:E.
    + exists "", (String c s). auto.
    + destruct (p c) eqn:Ep; [|discriminate].
      destruct (IH (Some c) H) as (ws & rest & -> & Hws & Hk).
      exists (String c ws), rest. cbn [every]. rewrite Ep. auto.
Qed.

(** A trimmed statement that the SELECT filter lets through starts with
    SELECT. *)
Lemma starts_select_trimmed (stmt : string) :
  TrimStart stmt = stmt -> IsMatch starts_select stmt = true ->
  StartsWith (ToUpper stmt) "SELECT" = true.
Proof.
  intros Ht H. unfold IsMatch, starts_select in H.
  apply search_inv in H as (pre & rest & -> & H).
  change (seq [Bol; ws_star; lit_ci "SELECT"])
    with (Cat Bol (Cat ws_star (lit_ci "SELECT"))) in H.
  change (matches (Cat ?a ?b) ?k ?p ?s) with (matches a (matches b k) p s) in H.
  cbn [matches] in H.
  destruct (last_char None pre) eqn:El; [discriminate|].
  apply last_char_None in El. subst pre. cbn [append] in *.
  unfold ws_star in H.
  change (matches (Cat ?a ?b) ?k ?p ?s) with (matches a (matches b k) p s) in H.
  cbn [matches] in H.
  apply star_class_inv in H as (ws & r & -> & Hws & H).
  destruct ws as [|c ws].
  - cbn [append] in *. apply matches_lit_ci_inv in H as (w & r' & -> & Hw & _).
    rewrite ToUpper_app, Hw. apply StartsWith_app.
  - cbn [every] in Hws. destruct (is_space c) eqn:Ec; [|discriminate].
    change (String c ws ++ r) with (String c (ws ++ r)) in Ht.
    apply TrimStart_fixed_head in Ht. congruence.
Qed.

(** X17.  Every statement [extractSelectStatements] returns starts with
    SELECT, in any letter case, has no white space at either end, holds no
    semicolon and is not empty. *)
Theorem extractSelectStatements_statements (query stmt : string) :
  In stmt (extractSelectStatements query) ->
  StartsWith (ToUpper stmt) "SELECT" = true /\
  Trim stmt = stmt /\
  every (is_not ";") stmt = true /\
  stmt <> "".
Proof.
  unfold extractSelectStatements. intros H.
  apply filter_In in H as [H Hsel]. apply filter_In in H as [H Hlen].
  apply in_map_iff in H as (piece & <- & Hp).
  destruct (Trim_fixed piece) as [T1 T2].
  repeat conj_split.
  - now apply starts_select_trimmed.
  - now apply Trim_id.
  - unfold Trim. apply every_TrimEnd, every_TrimStart.
    now apply (Split_pieces ";" query).
  - intros E. rewrite E in Hlen. discriminate.
Qed.

Lemma extractSelectStatements_witness :
  StartsWith (ToUpper "select * from Posts where Id = 1") "SELECT" = true.
Proof.
  apply (extractSelectStatements_statements
           "SET STATISTICS IO ON;  select * from Posts where Id = 1 ; ; SET STATISTICS IO OFF;"
           "select * from Posts where Id = 1").
  vm_compute. tauto.
Defined.

Lemma append_empty_r (s : string) : s ++ "" = s.
Proof. induction s as [|c s IH]; simpl; congruence. Qed.

(** X18.  The batch [run] executes holds the submitted batch verbatim; when
    statistics are asked for it holds a [SET STATISTICS] in any case; and
    building it from a batch it has built changes nothing. *)
Theorem finalQuery_wraps_once (captureStatistics : bool) (query : string) :
  (exists before after,
     finalQuery captureStatistics query = before ++ query ++ after) /\
  (captureStatistics = true ->
   Contains (ToUpper (finalQuery captureStatistics query)) "SET STATISTICS"
   = true) /\
  finalQuery captureStatistics (finalQuery captureStatistics query) =
  finalQuery captureStatistics query.
Proof.
  assert (W : forall q,
             Contains
               (ToUpper
                  (NL ++ "SET STATISTICS IO ON;" ++ NL ++
                   "SET STATISTICS TIME ON;" ++ NL ++ q ++ NL ++
                   "SET STATISTICS IO OFF;" ++ NL ++
                   "SET STATISTICS TIME OFF;")) "SET STATISTICS" = true).
  { intros q. rewrite !ToUpper_app.
    apply (Contains_skip (ToUpper NL)).
    apply StartsWith_append. reflexivity. }
  unfold finalQuery. destruct captureStatistics; cbn [andb].
  - destruct (Contains (ToUpper query) "SET STATISTICS") eqn:E; cbn [negb].
    + repeat conj_split; [exists "", ""; cbn [append]; now rewrite append_empty_r | auto |].
      now rewrite E.
    + repeat conj_split.
      * exists (NL ++ "SET STATISTICS IO ON;" ++ NL ++
                "SET STATISTICS TIME ON;" ++ NL),
               (NL ++ "SET STATISTICS IO OFF;" ++ NL ++
                "SET STATISTICS TIME OFF;").
        now rewrite !append_assoc.
      * intros _. apply W.
      * now rewrite W.
  - repeat conj_split; [exists "", ""; cbn [append]; now rewrite append_empty_r | discriminate | reflexivity].
Qed.

Lemma finalQuery_wraps_once_witness :
  Contains (ToUpper (finalQuery true "select 1")) "SET STATISTICS" = true.
Proof. now apply (finalQuery_wraps_once true "select 1"). Defined.

(** X19.  Every diagnostic message is reported in the statistics list or in
    the warnings list; it is reported in both exactly when it mentions a
    scan count or physical reads and none of logical reads, CPU time and
    elapsed time. *)
Theorem diagnostic_messages_split (diagnosticMessages : list string)
    (msg : string) :
  (In msg diagnosticMessages ->
   In msg (statisticsMessages diagnosticMessages) \/
   In msg (warningMessages diagnosticMessages)) /\
  (In msg (statisticsMessages diagnosticMessages) /\
   In msg (warningMessages diagnosticMessages) <->
   In msg diagnosticMessages /\
   Contains msg "scan count" || Contains msg "physical reads" = true /\
   Contains msg "logical reads" = false /\
   Contains msg "CPU time" = false /\
   Contains msg "elapsed time" = false).
Proof.
  unfold statisticsMessages, warningMessages. rewrite !filter_In.
  destruct (Contains msg "logical reads"), (Contains msg "CPU time"),
    (Contains msg "elapsed time"), (Contains msg "scan count"),
    (Contains msg "physical reads"); cbn; intuition congruence.
Qed.

End DBARunFacts.

Section CheckDBFacts.
Import CheckDBTool.

(** X20.  The database name in the DBCC CHECKDB statement is an opening
    bracket, a text without any bracket no longer than the name given, and
    a closing bracket: the name cannot close the quoting.  A name without
    brackets is quoted as it is. *)
Theorem safeDbName_brackets_only_at_the_ends (databaseName : string) :
  exists inner,
    safeDbName databaseName = "[" ++ inner ++ "]" /\
    query databaseName =
    "DBCC CHECKDB([" ++ inner ++ "]) WITH NO_INFOMSGS, ALL_ERRORMSGS" /\
    every (fun c => negb (is_bracket c)) inner = true /\
    (String.length inner <= String.length databaseName)%nat /\
    (every (fun c => negb (is_bracket c)) databaseName = true ->
     inner = databaseName).
Proof.
  exists (Tools.keep_chars (fun c => negb (is_bracket c)) databaseName).
  repeat conj_split.
  - reflexivity.
  - unfold query, safeDbName. cbn [append]. now rewrite !append_assoc.
  - apply keep_chars_every.
  - induction databaseName as [|c s IH]; simpl; [lia|].
    destruct (negb (is_bracket c)); simpl; lia.
  - apply keep_chars_id.
Qed.

End CheckDBFacts.

(* ================================================================== *)
(** * The two normalizers side by side                                 *)
(* ================================================================== *)

Section NormalizersAgree.
Import SqlSecurityValidator.

Lemma shared_char_line_end (c : ascii) :
  shared_char c = true -> is_LF c = Js.is_line_terminator c.
Proof.
  destruct c as [[] [] [] [] [] [] [] []]; vm_compute; congruence.
Qed.

Lemma shared_char_replaced (c : ascii) :
  shared_char c = true ->
  let c1 := if (c =? TAB)%char then " "%char else c in
  let c2 := if (c1 =? LF)%char then " "%char else c1 in
  let c3 := if (c2 =? CR)%char then " "%char else c2 in
  negb (is_space c3) || (c3 =? " ")%char = true.
Proof.
  destruct c as [[] [] [] [] [] [] [] []]; vm_compute; congruence.
Qed.

Lemma every_cons (P : ascii -> bool) (c : ascii) (s : string) :
  every P (String c s) = true <-> P c = true /\ every P s = true.
Proof. cbn [every]. destruct (P c); intuition congruence. Qed.

Lemma strip_line_comments_inside (eol : ascii -> bool) (c : ascii) (s : string) :
  strip_line_comments eol true (String c s) =
  if eol c then String c (strip_line_comments eol false s)
  else strip_line_comments eol true s.
Proof. reflexivity. Qed.

Lemma strip_block_comments_inside (c d : ascii) (s : string) :
  strip_block_comments true (String c (String d s)) =
  if (c =? "*")%char && (d =? "/")%char
  then strip_block_comments false s
  else strip_block_comments true (String d s).
Proof. reflexivity. Qed.

Lemma strip_line_comments_line_end (s : string) :
  every shared_char s = true ->
  forall inside,
    strip_line_comments is_LF inside s =
    strip_line_comments Js.is_line_terminator inside s.
Proof.
  induction s as [| c | c d s IH1 IH2] using string_pair_ind; intros H inside.
  - reflexivity.
  - apply every_cons in H as [Hc _]. cbn [strip_line_comments].
    rewrite (shared_char_line_end c Hc). reflexivity.
  - apply every_cons in H as [Hc H].
    pose proof H as Hd. apply every_cons in Hd as [_ Hs].
    destruct inside.
    + rewrite (strip_line_comments_inside is_LF c),
        (strip_line_comments_inside Js.is_line_terminator c),
        (shared_char_line_end c Hc).
      destruct (Js.is_line_terminator c); rewrite (IH2 H); reflexivity.
    + rewrite !strip_line_comments_pair.
      destruct ((c =? "-")%char && (d =? "-")%char);
        [now rewrite (IH1 Hs) | now rewrite (IH2 H)].
Qed.

Lemma every_strip_line_comments (P eol : ascii -> bool) (s : string) :
  every P s = true ->
  forall inside, every P (strip_line_comments eol inside s) = true.
Proof.
  induction s as [| c | c d s IH1 IH2] using string_pair_ind; intros H inside.
  - reflexivity.
  - apply every_cons in H as [Hc _]. cbn [strip_line_comments].
    destruct inside; [destruct (eol c)|]; cbn [every]; rewrite ?Hc; reflexivity.
  - apply every_cons in H as [Hc H].
    pose proof H as Hd. apply every_cons in Hd as [_ Hs].
    destruct inside.
    + rewrite strip_line_comments_inside. destruct (eol c); [|now apply IH2].
      apply every_cons. split; [exact Hc | now apply IH2].
    + rewrite strip_line_comments_pair.
      destruct ((c =? "-")%char && (d =? "-")%char); [now apply IH1|].
      apply every_cons. split; [exact Hc | now apply IH2].
Qed.

Lemma every_strip_block_comments (P : ascii -> bool) (s : string) :
  every P s = true ->
  forall inside, every P (strip_block_comments inside s) = true.
Proof.
  induction s as [| c | c d s IH1 IH2] using string_pair_ind; intros H inside.
  - reflexivity.
  - destruct inside; [reflexivity | exact H].
  - apply every_cons in H as [Hc H].
    pose proof H as Hd. apply every_cons in Hd as [_ Hs].
    destruct inside.
    + rewrite strip_block_comments_inside.
      destruct ((c =? "*")%char && (d =? "/")%char); [now apply IH1 | now apply IH2].
    + rewrite strip_block_comments_pair.
      destruct ((c =? "/")%char && (d =? "*")%char).
      * destruct (Contains s "*/"); [now apply IH1|].
        apply every_cons. split; [exact Hc | now apply IH2].
      * apply every_cons. split; [exact Hc | now apply IH2].
Qed.

(** Turning a white space character into a space first changes nothing of
    what [\s+] leaves. *)
Lemma collapse_whitespace_ReplaceChar (a : ascii) (s : string) :
  is_space a = true ->
  forall in_run, collapse_whitespace in_run (ReplaceChar a " " s) = collapse_whitespace in_run s.
Proof.
  intros Ha. induction s as [|c s IH]; intros in_run; [reflexivity|].
  cbn [ReplaceChar collapse_whitespace].
  destruct (c =? a)%char eqn:E.
  - apply Ascii.eqb_eq in E. subst c. rewrite Ha.
    change (is_space " ") with true. cbv iota. now rewrite !IH.
  - now rewrite !IH.
Qed.

Lemma shared_text_replaced (s : string) :
  every shared_char s = true ->
  every (fun c => negb (is_space c) || (c =? " ")%char)
        (ReplaceChar CR " " (ReplaceChar LF " " (ReplaceChar TAB " " s))) = true.
Proof.
  induction s as [|c s IH]; [reflexivity|]. intros H.
  apply every_cons in H as [Hc H]. cbn [ReplaceChar].
  apply every_cons. split; [exact (shared_char_replaced c Hc) | now apply IH].
Qed.

Lemma collapse_whitespace_ReplaceDoubleSpace (s : string) :
  forall in_run, collapse_whitespace in_run (ReplaceDoubleSpace s) = collapse_whitespace in_run s.
Proof.
  induction s as [| c | c d s IH1 IH2] using string_pair_ind; intros in_run;
    try reflexivity.
  rewrite ReplaceDoubleSpace_pair.
  destruct ((c =? " ")%char && (d =? " ")%char) eqn:E.
  - apply andb_true_iff in E as [Ec Ed].
    apply Ascii.eqb_eq in Ec, Ed. subst c d.
    cbn [collapse_whitespace]. change (is_space " ") with true. cbv iota.
    now rewrite IH1.
  - cbn [collapse_whitespace]. cbn [collapse_whitespace] in IH2.
    now rewrite !IH2.
Qed.

Lemma collapse_whitespace_collapse_loop (fuel : nat) :
  forall s in_run, collapse_whitespace in_run (collapse_loop fuel s) = collapse_whitespace in_run s.
Proof.
  induction fuel as [|fuel IH]; intros s in_run; simpl; [reflexivity|].
  destruct (Contains s "  "); [|reflexivity].
  now rewrite IH, collapse_whitespace_ReplaceDoubleSpace.
Qed.

(** A text whose only white space is single spaces is what [\s+] leaves of
    it. *)
Lemma collapse_whitespace_id (s : string) :
  every (fun c => negb (is_space c) || (c =? " ")%char) s = true ->
  Contains s "  " = false ->
  forall in_run,
    (in_run = true -> starts_with_space s = false) -> collapse_whitespace in_run s = s.
Proof.
  induction s as [|c s IH]; intros He Hc in_run Hr; [reflexivity|].
  apply every_cons in He as [Hsp He].
  rewrite Contains_double_space_cons in Hc.
  apply orb_false_iff in Hc as [Hcs Hc].
  cbn [collapse_whitespace]. destruct (is_space c) eqn:E.
  - cbn [negb orb] in Hsp. apply Ascii.eqb_eq in Hsp. subst c.
    change (" " =? " ")%char with true in Hcs. cbn [andb] in Hcs.
    destruct in_run.
    + specialize (Hr eq_refl). discriminate.
    + f_equal. now apply IH.
  - f_equal. apply IH; auto. discriminate.
Qed.

Lemma CollapseSpaces_collapse_whitespace (v : string) :
  every (fun c => negb (is_space c) || (c =? " ")%char) v = true ->
  CollapseSpaces v = collapse_whitespace false v.
Proof.
  intros H. unfold CollapseSpaces.
  rewrite <- (collapse_whitespace_collapse_loop (String.length v) v false).
  symmetry. apply collapse_whitespace_id.
  - now apply every_collapse_loop.
  - now apply collapse_loop_exits.
  - discriminate.
Qed.

Lemma TrimStart_collapse_whitespace (s : string) :
  forall in_run, TrimStart (collapse_whitespace in_run s) = collapse_whitespace false (TrimStart s).
Proof.
  induction s as [|c s IH]; intros in_run; [reflexivity|].
  cbn [collapse_whitespace TrimStart]. destruct (is_space c) eqn:E.
  - destruct in_run; [apply IH|].
    cbn [TrimStart]. change (is_space " ") with true. cbv iota. apply IH.
  - cbn [TrimStart collapse_whitespace]. now rewrite E.
Qed.

Lemma collapse_whitespace_empty (s : string) :
  forall in_run, collapse_whitespace in_run s = "" -> TrimEnd s = "".
Proof.
  induction s as [|c s IH]; intros in_run H; [reflexivity|].
  cbn [collapse_whitespace] in H. cbn [TrimEnd].
  destruct (is_space c); [|discriminate].
  destruct in_run; [|discriminate]. now rewrite (IH true H).
Qed.

Lemma TrimEnd_collapse_whitespace (s : string) :
  forall in_run, TrimEnd (collapse_whitespace in_run s) = collapse_whitespace in_run (TrimEnd s).
Proof.
  induction s as [|c s IH]; intros in_run; [reflexivity|].
  cbn [TrimEnd]. destruct (TrimEnd s) as [|e t] eqn:Et.
  - destruct (is_space c) eqn:E.
    + cbn [collapse_whitespace]. rewrite E.
      destruct in_run; [apply IH|].
      cbn [TrimEnd]. rewrite (IH true). cbn [collapse_whitespace].
      reflexivity.
    + cbn [collapse_whitespace]. rewrite E. cbn [TrimEnd].
      rewrite (IH false). cbn [collapse_whitespace]. now rewrite E.
  - remember (String e t) as r eqn:Er.
    assert (Hne : forall b, collapse_whitespace b r <> "").
    { intros b Hb. apply collapse_whitespace_empty in Hb.
      rewrite <- Et, TrimEnd_idem, Et in Hb. subst r. discriminate. }
    cbn [collapse_whitespace]. destruct (is_space c) eqn:E.
    + destruct in_run; [apply IH|].
      cbn [TrimEnd]. rewrite (IH true).
      destruct (collapse_whitespace true r) eqn:Ecw; [|reflexivity].
      now destruct (Hne true).
    + cbn [TrimEnd]. rewrite (IH false).
      destruct (collapse_whitespace false r) eqn:Ecw; [|reflexivity].
      now destruct (Hne false).
Qed.

(** X21.  On ASCII texts without CR, VT and FF the C# normalizer and the
    normalizer of the Node validators give the same text, although one
    trims and then collapses spaces in a loop and the other collapses white
    space in one pass and then trims. *)
Theorem normalizers_agree_on_shared_text (q : string) :
  every shared_char q = true ->
  cleanQuery_of q = Js.clean q.
Proof.
  intros H. unfold cleanQuery_of, Js.clean, RemoveComments.
  rewrite (strip_line_comments_line_end q H false).
  set (t := strip_block_comments false
              (strip_line_comments Js.is_line_terminator false q)).
  assert (Ht : every shared_char t = true)
    by (apply every_strip_block_comments, every_strip_line_comments, H).
  set (u := ReplaceChar CR " " (ReplaceChar LF " " (ReplaceChar TAB " " t))).
  assert (Hu : every (fun c => negb (is_space c) || (c =? " ")%char) u = true)
    by (apply shared_text_replaced, Ht).
  assert (Hcw : collapse_whitespace false t = collapse_whitespace false u).
  { unfold u. now rewrite !collapse_whitespace_ReplaceChar. }
  rewrite Hcw, CollapseSpaces_collapse_whitespace.
  - unfold Trim.
    now rewrite TrimStart_collapse_whitespace, TrimEnd_collapse_whitespace.
  - unfold Trim. now apply every_TrimEnd, every_TrimStart.
Qed.

Lemma normalizers_agree_on_shared_text_witness :
  cleanQuery_of "  SELECT  *
    FROM t -- all rows
    WHERE a = 1 /* one */  "
  = Js.clean "  SELECT  *
    FROM t -- all rows
    WHERE a = 1 /* one */  ".
Proof.
  apply normalizers_agree_on_shared_text. vm_compute. reflexivity.
Defined.

End NormalizersAgree.
